(** * libby-book-monitor: watchlist reconciliation, verified model

    Shallow embedding of [scripts/libby-book-monitor.py]: the title
    matcher, the watchlist store, and the [watch], [unwatch] and [check]
    commands, followed by the properties the specification states
    about them.

    Conventions.
    - A Python [str] is a [string]; [lower], [strip] and [in] follow
      Python on the ASCII range (characters above 127 are kept as they
      are and are never whitespace).
    - A JSON object with optional keys is a record whose optional keys
      are [option] fields ([None]: key absent or [null]).
    - A [dict] held by reference in several places is modelled by its
      position in the list that owns it.
    - Input/output is an explicit trace of [event]s next to the state
      of the data directory. *)

From Stdlib Require Import Ascii ZArith Lia.
From stdpp Require Import base option list gmap strings pretty.

Local Open Scope Z_scope.
Local Open Scope nat_scope.

(* ================================================================== *)
(** * Python string primitives *)
(* ================================================================== *)

Module PyStr.

(** One character of [str.lower()]: A..Z go to a..z. *)
Definition lower_char (c : ascii) : ascii :=
  let n := nat_of_ascii c in
  if (65 <=? n) && (n <=? 90) then ascii_of_nat (n + 32) else c.

(** [s.lower()] *)
Fixpoint lower (s : string) : string :=
  match s with
  | EmptyString => EmptyString
  | String c s' => String (lower_char c) (lower s')
  end.

(** [c.isspace()] on the ASCII range: TAB, LF, VT, FF, CR, the four
    separators FS, GS, RS, US, and the space. *)
Definition is_space (c : ascii) : bool :=
  let n := nat_of_ascii c in
  ((9 <=? n) && (n <=? 13)) || ((28 <=? n) && (n <=? 32)).

(** [s.lstrip()] *)
Fixpoint lstrip (s : string) : string :=
  match s with
  | EmptyString => EmptyString
  | String c s' => if is_space c then lstrip s' else s
  end.

(** [s.rstrip()] *)
Fixpoint rstrip (s : string) : string :=
  match s with
  | EmptyString => EmptyString
  | String c s' =>
      match rstrip s' with
      | EmptyString => if is_space c then EmptyString else String c EmptyString
      | r => String c r
      end
  end.

(** [s.strip()] *)
Definition strip (s : string) : string := lstrip (rstrip s).

(** [b.startswith(a)] *)
Fixpoint startswith (a b : string) : bool :=
  match a, b with
  | EmptyString, _ => true
  | String _ _, EmptyString => false
  | String x a', String y b' => if decide (x = y) then startswith a' b' else false
  end.

(** [a in b] for two strings: [a] occurs in [b] at some offset. *)
Fixpoint contains (a b : string) : bool :=
  startswith a b ||
  match b with
  | EmptyString => false
  | String _ b' => contains a b'
  end.

(** A string made of whitespace only (the empty string included). *)
Fixpoint all_space (s : string) : bool :=
  match s with
  | EmptyString => true
  | String c s' => is_space c && all_space s'
  end.

(** Python truthiness of a string. *)
Definition truthy (s : string) : bool :=
  match s with EmptyString => false | _ => true end.

(** The line-feed character, for the newlines embedded in messages. *)
Definition nl : string := String (ascii_of_nat 10) EmptyString.

End PyStr.

(** The relation the executable [PyStr.contains] decides. *)
Definition substring_of (a b : string) : Prop :=
  exists pre post, b = pre +:+ a +:+ post.

(** [s] does not begin with whitespace. *)
Definition clean_head (s : string) : Prop :=
  forall c s', s = String c s' -> PyStr.is_space c = false.

(** [s] does not end with whitespace. *)
Definition clean_tail (s : string) : Prop :=
  forall s' c, s = s' +:+ String c "" -> PyStr.is_space c = false.

(** [t] is [s] without its leading and trailing whitespace. *)
Definition trimmed_of (s t : string) : Prop :=
  exists l r, s = l +:+ t +:+ r
    /\ PyStr.all_space l = true /\ PyStr.all_space r = true
    /\ clean_head t /\ clean_tail t.

(* ================================================================== *)
(** * Match evaluator *)
(* ================================================================== *)

(** [title_matches(search_title, result_title)] *)
Definition title_matches (search_title result_title : string) : bool :=
  let a := PyStr.strip (PyStr.lower search_title) in
  let b := PyStr.strip (PyStr.lower result_title) in
  PyStr.contains a b || PyStr.contains b a.


(* ================================================================== *)
(** * Data model *)
(* ================================================================== *)

(** One element of [watchlist["books"]].  [title], [library] and
    [last_status] are read with [book[...]], so they are always there;
    [author] is read with [book.get("author", "")]. *)
Record Book := {
  title : string;
  author : option string;
  library : string;
  added : string;
  last_status : string;
  last_checked : option string;
  found_date : option string;
}.

(** The persisted document [{"books": [...]}]. *)
Record Watchlist := { books : list Book }.

(** [config.json] *)
Record Config := {
  default_library : option string;
  libraries : gmap string string;
}.

(** One element of the response's ["items"]; every key is read with
    [item.get(key, default)]. *)
Record Item := {
  item_title : option string;
  firstCreatorName : option string;
  isOwned : option bool;
  ownedCopies : option Z;
  isAvailable : option bool;
  availableCopies : option Z;
}.

(** The parsed JSON body of a catalogue search. *)
Record Response := {
  totalItems : option Z;
  items : option (list Item);
}.

(** What [urlopen] meets: a body, or one of the three exceptions
    [search_library] catches. *)
Inductive Reply :=
| Body (data : Response)
| HTTPError (code : Z) (reason : string)
| URLError (reason : string)
| OtherError (msg : string).

(** The data directory: [config.json] and the watchlist files by name. *)
Record DataDir := {
  config_json : option Config;
  watchlist_files : gmap string Watchlist;
}.

(** Observable effects, in program order. *)
Inductive event :=
| Request (library_code query : string)
| Stderr (text : string)
| Sleep (seconds : nat)
| Print (text : string)
| WriteConfig (c : Config)
| WriteWatchlist (path : string) (w : Watchlist).

(** The result of running one command. *)
Record Outcome := {
  exit_code : Z;
  data_dir : DataDir;
  trace : list event;
}.

(** The world one [check] run executes in, by loop index [idx]: what
    the request of that iteration meets, and what the two
    [datetime.now()] calls of that iteration format to. *)
Record Env := {
  remote : nat -> string -> string -> Reply;
  now_stamp : nat -> string;
  now_date : nat -> string;
}.

Record WatchArgs := {
  w_profile : option string;
  w_title : string;
  w_author : option string;
  w_library : option string;
}.

Record UnwatchArgs := {
  u_profile : option string;
  u_title : string;
}.

Record CheckArgs := {
  c_profile : option string;
  c_notify : bool;
}.

Definition RATE_LIMIT_SECONDS : nat := 1.

(* ================================================================== *)
(** * Watchlist store *)
(* ================================================================== *)

(** [get_watchlist_path(data_dir, profile)], as a file name inside the
    data directory. *)
Definition get_watchlist_path (profile : option string) : string :=
  match profile with
  | Some p => if PyStr.truthy p then "watchlist-" +:+ p +:+ ".json" else "watchlist.json"
  | None => "watchlist.json"
  end.

Definition default_config : Config :=
  {| default_library := Some "telaviv";
     libraries := {[ "telaviv" := "Israel Digital" ]} |}.

(** [load_config(data_dir)]: the configuration, the directory after the
    call and what was written. *)
Definition load_config (dd : DataDir) : Config * DataDir * list event :=
  match config_json dd with
  | None =>
      (default_config,
       {| config_json := Some default_config; watchlist_files := watchlist_files dd |},
       [WriteConfig default_config])
  | Some c => (c, dd, [])
  end.

(** [load_watchlist(data_dir, profile)] *)
Definition load_watchlist (dd : DataDir) (profile : option string) : Watchlist :=
  match watchlist_files dd !! get_watchlist_path profile with
  | None => {| books := [] |}
  | Some w => w
  end.

(** [save_watchlist(data_dir, watchlist, profile)] *)
Definition save_watchlist (dd : DataDir) (watchlist : Watchlist)
    (profile : option string) : DataDir * list event :=
  let path := get_watchlist_path profile in
  ({| config_json := config_json dd;
      watchlist_files := <[path := watchlist]> (watchlist_files dd) |},
   [WriteWatchlist path watchlist]).

(* ================================================================== *)
(** * Catalogue client *)
(* ================================================================== *)

(** [search_library(library_code, query)] against the reply the request
    meets: the parsed body or [None], and the effects. *)
Definition search_library (reply : Reply) (library_code query : string)
    : option Response * list event :=
  match reply with
  | Body data => (Some data, [Request library_code query])
  | HTTPError code reason =>
      (None, [Request library_code query;
              Stderr ("Error: HTTP " +:+ pretty code +:+ " - " +:+ reason)])
  | URLError reason =>
      (None, [Request library_code query; Stderr ("Error: " +:+ reason)])
  | OtherError msg =>
      (None, [Request library_code query; Stderr ("Error: " +:+ msg)])
  end.

(* ================================================================== *)
(** * Commands *)
(* ================================================================== *)

(** [a or b] on an optional string. *)
Definition str_or (a : option string) (b : string) : string :=
  match a with
  | Some s => if PyStr.truthy s then s else b
  | None => b
  end.

(** The [for book in watchlist["books"]] scan of [cmd_watch]. *)
Definition already_watching (t : string) (bs : list Book) : bool :=
  existsb (fun book => bool_decide (PyStr.lower (title book) = PyStr.lower t)) bs.

(** [cmd_watch(args, data_dir)]; [today] is what [datetime.now()]
    formats to. *)
Definition cmd_watch (args : WatchArgs) (today : string) (dd : DataDir) : Outcome :=
  let '(config, dd1, ev_config) := load_config dd in
  let watchlist := load_watchlist dd1 (w_profile args) in
  let library := str_or (w_library args) (default "telaviv" (default_library config)) in
  let title := w_title args in
  let author := str_or (w_author args) "" in
  if already_watching title (books watchlist) then
    {| exit_code := 0; data_dir := dd1;
       trace := ev_config ++ [Print ("Already watching: " +:+ title)] |}
  else
    let watchlist' :=
      {| books := books watchlist ++
           [{| title := title; author := Some author; library := library;
               added := today; last_status := "not_found";
               last_checked := None; found_date := None |}] |} in
    let '(dd2, ev_save) := save_watchlist dd1 watchlist' (w_profile args) in
    {| exit_code := 0; data_dir := dd2;
       trace := ev_config ++ ev_save
                ++ [Print ("Added to watchlist: " +:+ title)]
                ++ (if PyStr.truthy author then [Print ("  Author: " +:+ author)] else [])
                ++ [Print ("  Library: " +:+ library)] |}.

(** [cmd_unwatch(args, data_dir)] *)
Definition cmd_unwatch (args : UnwatchArgs) (dd : DataDir) : Outcome :=
  let watchlist := load_watchlist dd (u_profile args) in
  let title_arg := u_title args in
  let before := length (books watchlist) in
  let watchlist' :=
    {| books := List.filter
         (fun b => negb (bool_decide (PyStr.lower (title b) = PyStr.lower title_arg)))
         (books watchlist) |} in
  if length (books watchlist') <? before then
    let '(dd', ev_save) := save_watchlist dd watchlist' (u_profile args) in
    {| exit_code := 0; data_dir := dd';
       trace := ev_save ++ [Print ("Removed: " +:+ title_arg)] |}
  else
    {| exit_code := 1; data_dir := dd;
       trace := [Print ("Not found in watchlist: " +:+ title_arg)] |}.

(** The condition of the inner loop of [cmd_check]:
    [title_matches(title, item.get("title", "")) and item.get("isOwned", False)]. *)
Definition genuine_match (t : string) (item : Item) : bool :=
  title_matches t (default "" (item_title item)) && default false (isOwned item).

(** The inner [for item in data.get("items", [])] loop with its [break]:
    [matched_item], which is not [None] exactly when [found] is set. *)
Fixpoint scan_items (t : string) (its : list Item) : option Item :=
  match its with
  | [] => None
  | item :: rest => if genuine_match t item then Some item else scan_items t rest
  end.

(** The state the outer loop of [cmd_check] works on: the book objects
    (mutated in place), [new_finds] (each book held by reference, here
    its position in [books]) and the effects so far. *)
Record CheckState := {
  cs_books : list Book;
  cs_new_finds : list (nat * Item);
  cs_trace : list event;
}.

Definition set_checked (book : Book) (status : string) (stamp : string)
    (fdate : option string) : Book :=
  {| title := title book; author := author book; library := library book;
     added := added book; last_status := status;
     last_checked := Some stamp; found_date := fdate |}.

(** [query = f"{title} {author}".strip()] *)
Definition book_query (book : Book) : string :=
  PyStr.strip (title book +:+ " " +:+ default "" (author book)).

(** One iteration of the outer loop, for index [idx] of [total]. *)
Definition check_book (env : Env) (total idx : nat) (st : CheckState) : CheckState :=
  match cs_books st !! idx with
  | None => st
  | Some book =>
      let prev_status := last_status book in
      let query := book_query book in
      let '(data, ev_search) :=
        search_library (remote env idx (library book) query) (library book) query in
      match data with
      | None =>
          (* continue *)
          {| cs_books := cs_books st; cs_new_finds := cs_new_finds st;
             cs_trace := cs_trace st ++ ev_search |}
      | Some data =>
          let matched_item := scan_items (title book) (default [] (items data)) in
          let now := now_stamp env idx in
          let ev_sleep := if idx <? total - 1 then [Sleep RATE_LIMIT_SECONDS] else [] in
          match matched_item with
          | Some item =>
              if bool_decide (prev_status = "not_found") then
                {| cs_books :=
                     <[idx := set_checked book "found" now (Some (now_date env idx))]>
                       (cs_books st);
                   cs_new_finds := cs_new_finds st ++ [(idx, item)];
                   cs_trace := cs_trace st ++ ev_search ++ ev_sleep |}
              else
                {| cs_books :=
                     <[idx := set_checked book "found" now (found_date book)]> (cs_books st);
                   cs_new_finds := cs_new_finds st;
                   cs_trace := cs_trace st ++ ev_search ++ ev_sleep |}
          | None =>
              {| cs_books :=
                   <[idx := set_checked book "not_found" now (found_date book)]>
                     (cs_books st);
                 cs_new_finds := cs_new_finds st;
                 cs_trace := cs_trace st ++ ev_search ++ ev_sleep |}
          end
      end
  end.

(** The outer loop over the indices still to visit. *)
Fixpoint check_loop (env : Env) (total : nat) (idxs : list nat) (st : CheckState)
    : CheckState :=
  match idxs with
  | [] => st
  | idx :: rest => check_loop env total rest (check_book env total idx st)
  end.

(** [for idx, book in enumerate(watchlist["books"])], from
    [new_finds = []]. *)
Definition check_pass (env : Env) (bs : list Book) : CheckState :=
  let total := length bs in
  check_loop env total (seq 0 total)
    {| cs_books := bs; cs_new_finds := []; cs_trace := [] |}.

(** Truthiness of an item object: a [dict] with at least one key. *)
Definition item_truthy (item : Item) : bool :=
  bool_decide (is_Some (item_title item)) || bool_decide (is_Some (firstCreatorName item))
  || bool_decide (is_Some (isOwned item)) || bool_decide (is_Some (ownedCopies item))
  || bool_decide (is_Some (isAvailable item)) || bool_decide (is_Some (availableCopies item)).

(** The three [print] calls for one element of [new_finds] in notify
    mode. *)
Definition print_new_find (bs : list Book) (nf : nat * Item) : list event :=
  let '(idx, item) := nf in
  match bs !! idx with
  | None => []
  | Some book =>
      let t := if item_truthy item then default (title book) (item_title item)
               else title book in
      let a := if item_truthy item
               then default (default "" (author book)) (firstCreatorName item)
               else default "" (author book) in
      let copies := if item_truthy item then pretty (default 0%Z (ownedCopies item))
                    else "?" in
      let avail := if item_truthy item && default false (isAvailable item)
                   then "Yes" else "No" in
      [Print ("  " +:+ t +:+ " - " +:+ a);
       Print ("    Library: " +:+ library book +:+ " | Copies: " +:+ copies
              +:+ " | Available: " +:+ avail);
       Print ""]
  end.

(** The output section of [cmd_check], after the save. *)
Definition check_report (notify_only : bool) (total : nat) (st : CheckState)
    : list event :=
  let new_finds := cs_new_finds st in
  (if notify_only then
     match new_finds with
     | [] => []
     | _ => [Print ("New on Libby:" +:+ PyStr.nl)]
            ++ concat (map (print_new_find (cs_books st)) new_finds)
     end
   else
     [Print ("Checked " +:+ pretty total +:+ " book(s).")]
     ++ match new_finds with
        | [] => []
        | _ => [Print (pretty (length new_finds) +:+ " new addition(s) found!")]
        end)
  ++
  let found_books :=
    List.filter (fun b => bool_decide (last_status b = "found")) (cs_books st) in
  match found_books with
  | [] => []
  | _ =>
      [Print (PyStr.nl +:+ pretty (length found_books) +:+ " book(s) already in catalogue:")]
      ++ map (fun b => Print ("  - " +:+ title b)) found_books
      ++ [Print "Consider removing them with 'unwatch'."]
  end.

(** [cmd_check(args, data_dir)] *)
Definition cmd_check (args : CheckArgs) (env : Env) (dd : DataDir) : Outcome :=
  let watchlist := load_watchlist dd (c_profile args) in
  let notify_only := c_notify args in
  match books watchlist with
  | [] =>
      {| exit_code := 0; data_dir := dd;
         trace := if notify_only then [] else [Print "Watchlist is empty."] |}
  | _ =>
      let total := length (books watchlist) in
      let st := check_pass env (books watchlist) in
      let '(dd', ev_save) :=
        save_watchlist dd {| books := cs_books st |} (c_profile args) in
      {| exit_code := 0; data_dir := dd';
         trace := cs_trace st ++ ev_save ++ check_report notify_only total st |}
  end.

(** A sequence of [check] runs, one world per run. *)
Fixpoint check_runs (args : CheckArgs) (envs : list Env) (dd : DataDir) : DataDir :=
  match envs with
  | [] => dd
  | env :: rest => check_runs args rest (data_dir (cmd_check args env dd))
  end.

(* ================================================================== *)
(** * Notions used by the statements *)
(* ================================================================== *)

(** What the search of iteration [idx] returns for [book]. *)
Definition response_of (env : Env) (idx : nat) (book : Book) : option Response :=
  (search_library (remote env idx (library book) (book_query book))
     (library book) (book_query book)).1.

(** [item] is the first element of [its] that title-matches [t] and is
    owned. *)
Definition first_genuine (t : string) (its : list Item) (item : Item) : Prop :=
  exists pre post, its = pre ++ item :: post
    /\ genuine_match t item = true
    /\ Forall (fun other => genuine_match t other = false) pre.

(** [b'] is [b] after one iteration of the [check] loop at [idx]. *)
Definition entry_outcome (env : Env) (idx : nat) (b b' : Book) : Prop :=
  match response_of env idx b with
  | None => b' = b
  | Some data =>
      title b' = title b /\ author b' = author b /\ library b' = library b
      /\ added b' = added b
      /\ last_checked b' = Some (now_stamp env idx)
      /\ match scan_items (title b) (default [] (items data)) with
         | Some _ =>
             last_status b' = "found"
             /\ found_date b' = (if bool_decide (last_status b = "not_found")
                                then Some (now_date env idx) else found_date b)
         | None => last_status b' = "not_found" /\ found_date b' = found_date b
         end
  end.

(** The element iteration [idx] appends to [new_finds] for [book], if any. *)
Definition new_find_of (env : Env) (idx : nat) (book : Book) : option Item :=
  match response_of env idx book with
  | None => None
  | Some data =>
      if bool_decide (last_status book = "not_found")
      then scan_items (title book) (default [] (items data))
      else None
  end.

(** The number of [Sleep] events of a trace. *)
Definition pauses (tr : list event) : nat :=
  length (List.filter (fun e => match e with Sleep _ => true | _ => false end) tr).

(** The number of requests of a trace. *)
Definition requests (tr : list event) : nat :=
  length (List.filter (fun e => match e with Request _ _ => true | _ => false end) tr).

(** What [print] wrote, in order. *)
Definition stdout (tr : list event) : list string :=
  omap (fun e => match e with Print s => Some s | _ => None end) tr.

(** The watchlist files written, in order. *)
Definition writes (tr : list event) : list (string * Watchlist) :=
  omap (fun e => match e with WriteWatchlist p w => Some (p, w) | _ => None end) tr.

(** No two entries share a case-folded title. *)
Definition unique_titles (bs : list Book) : Prop :=
  NoDup ((fun b => PyStr.lower (title b)) <$> bs).

(** The entries of [bs] whose case-folded title is that of [t]. *)
Definition entries_for (t : string) (bs : list Book) : list Book :=
  List.filter (fun b => bool_decide (PyStr.lower (title b) = PyStr.lower t)) bs.

(** What iteration [idx] appends to [new_finds], given the books [bs]. *)
Definition new_find_entries (env : Env) (bs : list Book) (idx : nat)
    : list (nat * Item) :=
  match bs !! idx with
  | Some b =>
      match new_find_of env idx b with
      | Some item => [(idx, item)]
      | None => []
      end
  | None => []
  end.

(** Iteration [idx] over the books [bs] got an answer to its search. *)
Definition answered (env : Env) (bs : list Book) (idx : nat) : bool :=
  match bs !! idx with
  | Some b => bool_decide (is_Some (response_of env idx b))
  | None => false
  end.

(** The books of the default or named watchlist of a data directory. *)
Definition stored_books (dd : DataDir) (profile : option string) : list Book :=
  books (load_watchlist dd profile).

(** The claim that a set [found_date] survives the check runs [envs]
    for the entry at position [i]. *)
Definition found_date_frozen (args : CheckArgs) (envs : list Env) (dd : DataDir)
    (i : nat) : Prop :=
  forall b d, stored_books dd (c_profile args) !! i = Some b ->
    found_date b = Some d ->
    exists b', stored_books (check_runs args envs dd) (c_profile args) !! i = Some b'
               /\ found_date b' = Some d.

(* ================================================================== *)
(** * Sample data *)
(* ================================================================== *)

Module Sample.

Definition book (t status : string) (fdate : option string) : Book :=
  {| title := t; author := Some ""; library := "telaviv"; added := "2024-01-01";
     last_status := status; last_checked := None; found_date := fdate |}.

Definition dune_item : Item :=
  {| item_title := Some "Dune"; firstCreatorName := Some "Frank Herbert";
     isOwned := Some true; ownedCopies := Some 3%Z;
     isAvailable := Some true; availableCopies := Some 1%Z |}.

Definition unowned_item : Item :=
  {| item_title := Some "Dune"; firstCreatorName := Some "Frank Herbert";
     isOwned := Some false; ownedCopies := Some 0%Z;
     isAvailable := Some false; availableCopies := Some 0%Z |}.

Definition response (its : list Item) : Response :=
  {| totalItems := Some (Z.of_nat (length its)); items := Some its |}.

(** Every search answers with [its]; the clock reads [date]. *)
Definition env_answering (its : list Item) (date : string) : Env :=
  {| remote := fun _ _ _ => Body (response its);
     now_stamp := fun _ => date +:+ "T10:00:00";
     now_date := fun _ => date |}.

(** As [env_answering], but the request of iteration [bad] times out. *)
Definition env_failing_at (bad : nat) (its : list Item) (date : string) : Env :=
  {| remote := fun idx _ _ =>
       if decide (idx = bad) then URLError "timed out" else Body (response its);
     now_stamp := fun _ => date +:+ "T10:00:00";
     now_date := fun _ => date |}.

Definition dir (bs : list Book) : DataDir :=
  {| config_json := Some default_config;
     watchlist_files := {[ "watchlist.json" := {| books := bs |} ]} |}.

Definition check_args (notify : bool) : CheckArgs :=
  {| c_profile := None; c_notify := notify |}.

Definition watch_args (t : string) : WatchArgs :=
  {| w_profile := None; w_title := t; w_author := None; w_library := None |}.

Definition unwatch_args (t : string) : UnwatchArgs :=
  {| u_profile := None; u_title := t |}.

End Sample.

(* ================================================================== *)
(** * The search command and the request URL *)
(* ================================================================== *)

Record SearchArgs := {
  s_library_code : string;
  s_query : string;
}.

(** The double-quote character of the [Searching "..."] message. *)
Definition dquote : string := String (ascii_of_nat 34) EmptyString.

(** The characters [urllib.parse.quote] never escapes: letters, digits
    and [_.-~]. *)
Definition unreserved (c : ascii) : bool :=
  let n := nat_of_ascii c in
  ((48 <=? n) && (n <=? 57)) || ((65 <=? n) && (n <=? 90))
  || ((97 <=? n) && (n <=? 122))
  || (n =? 45) || (n =? 46) || (n =? 95) || (n =? 126).

(** One upper-case hexadecimal digit. *)
Definition hex_digit (n : nat) : ascii :=
  if n <? 10 then ascii_of_nat (48 + n) else ascii_of_nat (55 + n).

(** [urllib.parse.quote(query, safe="")] on the ASCII range (a
    character above 127 stands for one byte of the UTF-8 form): every
    character that is not unreserved becomes [%XX]. *)
Fixpoint quote (s : string) : string :=
  match s with
  | EmptyString => EmptyString
  | String c s' =>
      if unreserved c then String c (quote s')
      else
        let n := nat_of_ascii c in
        String "%" (String (hex_digit (n / 16)) (String (hex_digit (n mod 16)) (quote s')))
  end.

Definition API_BASE : string := "https://thunder.api.overdrive.com/v2/libraries".

(** The [url] of [search_library]. *)
Definition request_url (library_code query : string) : string :=
  API_BASE +:+ "/" +:+ library_code +:+ "/media?query=" +:+ quote query.

(** The three [print] calls of [cmd_search] for the item numbered
    [idx]; a key of the item is absent or holds a value of its type. *)
Definition print_search_item (idx : nat) (item : Item) : list event :=
  let t := default "Unknown" (item_title item) in
  let a := default "Unknown" (firstCreatorName item) in
  let is_owned := default false (isOwned item) in
  let owned_copies := default 0%Z (ownedCopies item) in
  let is_available := default false (isAvailable item) in
  let available_copies := default 0%Z (availableCopies item) in
  let status := if is_owned then "In catalogue" else "Not owned" in
  let avail := if is_available then "Yes (" +:+ pretty available_copies +:+ ")"
               else "No" in
  [Print ("  " +:+ pretty idx +:+ ". " +:+ t +:+ " - " +:+ a);
   Print ("     " +:+ status +:+ " | Copies: " +:+ pretty owned_copies
          +:+ " | Available: " +:+ avail);
   Print ""].

(** [for idx, item in enumerate(items, idx)] *)
Fixpoint print_search_items (idx : nat) (its : list Item) : list event :=
  match its with
  | [] => []
  | item :: rest => print_search_item idx item ++ print_search_items (S idx) rest
  end.

(** [cmd_search(args, data_dir)] against the reply the request meets. *)
Definition cmd_search (args : SearchArgs) (reply : Reply) (dd : DataDir) : Outcome :=
  let library_code := s_library_code args in
  let query := s_query args in
  let ev_head :=
    [Print ("Searching " +:+ dquote +:+ query +:+ dquote +:+ " in " +:+ library_code
            +:+ "..." +:+ PyStr.nl)] in
  let '(data, ev_search) := search_library reply library_code query in
  match data with
  | None => {| exit_code := 1; data_dir := dd; trace := ev_head ++ ev_search |}
  | Some data =>
      let total := default 0%Z (totalItems data) in
      let its := default [] (items data) in
      if (total =? 0)%Z then
        {| exit_code := 0; data_dir := dd;
           trace := ev_head ++ ev_search ++ [Print "No results found."] |}
      else
        {| exit_code := 0; data_dir := dd;
           trace := ev_head ++ ev_search ++ print_search_items 1 its
                    ++ [Print (pretty total +:+ " result(s) total")] |}
  end.

(* ================================================================== *)
(** * Command dispatch *)
(* ================================================================== *)

(** One invocation of the program with the world it runs in: the
    entries of the dispatch table of [main] modelled here. *)
Inductive command :=
| Search (args : SearchArgs) (reply : Reply)
| Watch (args : WatchArgs) (today : string)
| Unwatch (args : UnwatchArgs)
| Check (args : CheckArgs) (env : Env).

(** [{...}[args.command](args, data_dir)] *)
Definition dispatch (c : command) (dd : DataDir) : Outcome :=
  match c with
  | Search args reply => cmd_search args reply dd
  | Watch args today => cmd_watch args today dd
  | Unwatch args => cmd_unwatch args dd
  | Check args env => cmd_check args env dd
  end.

(** Successive invocations on the same data directory. *)
Fixpoint run_all (cs : list command) (dd : DataDir) : DataDir :=
  match cs with
  | [] => dd
  | c :: rest => run_all rest (data_dir (dispatch c dd))
  end.

(** A data directory before first use. *)
Definition fresh_dir : DataDir :=
  {| config_json := None; watchlist_files := ∅ |}.

(* ================================================================== *)
(** * Further notions used by the statements *)
(* ================================================================== *)

(** The requests of a trace, in order. *)
Definition request_log (tr : list event) : list (string * string) :=
  omap (fun e => match e with Request l q => Some (l, q) | _ => None end) tr.

(** A trace that only prints to standard output. *)
Definition only_prints (tr : list event) : Prop :=
  Forall (fun e => match e with Print _ => True | _ => False end) tr.

(** A trace of requests, error messages and pauses only. *)
Definition only_polling (tr : list event) : Prop :=
  Forall (fun e => match e with
                   | Request _ _ | Stderr _ | Sleep _ => True
                   | _ => False
                   end) tr.

(** An entry whose status is one of the two the program writes, and
    which carries a date when it is [found]. *)
Definition consistent (b : Book) : Prop :=
  (last_status b = "found" \/ last_status b = "not_found")
  /\ (last_status b = "found" -> is_Some (found_date b)).

(** Every stored watchlist has consistent entries and no two entries
    with the same case-folded title. *)
Definition well_kept (dd : DataDir) : Prop :=
  forall path w, watchlist_files dd !! path = Some w ->
    Forall consistent (books w) /\ unique_titles (books w).

(** The watchlist file a command works on, if any. *)
Definition command_file (c : command) : option string :=
  match c with
  | Search _ _ => None
  | Watch args _ => Some (get_watchlist_path (w_profile args))
  | Unwatch args => Some (get_watchlist_path (u_profile args))
  | Check args _ => Some (get_watchlist_path (c_profile args))
  end.

(** The invocation is one the program answers with exit code 1: a
    search whose request fails, or an unwatch of a title that no entry
    has. *)
Definition fails (c : command) (dd : DataDir) : Prop :=
  match c with
  | Search _ reply => match reply with Body _ => False | _ => True end
  | Unwatch args =>
      Forall (fun b => PyStr.lower (title b) <> PyStr.lower (u_title args))
        (stored_books dd (u_profile args))
  | Watch _ _ | Check _ _ => False
  end.

(** A character allowed in the encoded query. *)
Definition url_safe (c : ascii) : bool :=
  unreserved c || bool_decide (c = "%"%char).

(** Every character of [s] satisfies [p]. *)
Fixpoint all_chars (p : ascii -> bool) (s : string) : bool :=
  match s with
  | EmptyString => true
  | String c s' => p c && all_chars p s'
  end.

(* ================================================================== *)
(** * Strings: what the primitives compute *)
(* ================================================================== *)

Section StringFacts.

Implicit Types (a b s t : string) (c : ascii).

Lemma app_empty_l s : "" +:+ s = s.
Proof. reflexivity. Qed.

Lemma app_cons c s t : String c s +:+ t = String c (s +:+ t).
Proof. reflexivity. Qed.

Lemma app_empty_r s : s +:+ "" = s.
Proof. induction s as [|c s IH]; [reflexivity|]. rewrite app_cons. by f_equal. Qed.

Lemma app_assoc3 s t b : (s +:+ t) +:+ b = s +:+ t +:+ b.
Proof.
  induction s as [|c s IH]; [reflexivity|].
  rewrite !app_cons. by f_equal.
Qed.

Lemma startswith_spec a b :
  PyStr.startswith a b = true <-> exists post, b = a +:+ post.
Proof.
  revert b. induction a as [|x a IH]; intros b; simpl.
  - split; [intros _; by exists b | done].
  - destruct b as [|y b].
    + split; [done | intros [post Hpost]; rewrite app_cons in Hpost; discriminate].
    + destruct (decide (x = y)) as [->|Hxy].
      * rewrite IH. split; intros [post Hpost]; exists post.
        -- rewrite app_cons. by f_equal.
        -- rewrite app_cons in Hpost. by injection Hpost.
      * split; [done|]. intros [post Hpost]. rewrite app_cons in Hpost.
        injection Hpost as Hc _. by destruct Hxy.
Qed.

Lemma contains_spec a b : PyStr.contains a b = true <-> substring_of a b.
Proof.
  unfold substring_of. induction b as [|y b IH].
  - simpl. rewrite orb_false_r, startswith_spec. split.
    + intros [post Hpost]. by exists "", post.
    + intros [[|p pre] [post Hpost]]; [by exists post|].
      rewrite app_cons in Hpost. discriminate.
  - simpl. rewrite orb_true_iff, startswith_spec, IH. split.
    + intros [[post Hpost] | (pre & post & Hb)].
      * by exists "", post.
      * exists (String y pre), post. rewrite app_cons. by f_equal.
    + intros [[|p pre] [post Hpost]].
      * left. by exists post.
      * right. rewrite app_cons in Hpost. injection Hpost as _ Hb. by exists pre, post.
Qed.

Lemma contains_empty b : PyStr.contains "" b = true.
Proof. by destruct b. Qed.

Lemma is_space_lower_char c : PyStr.is_space (PyStr.lower_char c) = PyStr.is_space c.
Proof. by destruct c as [[] [] [] [] [] [] [] []]. Qed.

Lemma all_space_lower s : PyStr.all_space (PyStr.lower s) = PyStr.all_space s.
Proof.
  induction s as [|c s IH]; [done|]. simpl. by rewrite is_space_lower_char, IH.
Qed.

Lemma rstrip_all_space s : PyStr.all_space s = true -> PyStr.rstrip s = "".
Proof.
  induction s as [|c s IH]; [done|]. simpl.
  intros [Hc Hs]%andb_true_iff. by rewrite (IH Hs), Hc.
Qed.

Lemma strip_all_space s : PyStr.all_space s = true -> PyStr.strip s = "".
Proof. intros Hs. unfold PyStr.strip. by rewrite rstrip_all_space. Qed.

Lemma rstrip_spec s :
  exists r, s = PyStr.rstrip s +:+ r /\ PyStr.all_space r = true
            /\ clean_tail (PyStr.rstrip s).
Proof.
  induction s as [|c s (r & Hs & Hr & Hclean)].
  - exists "". split; [done|]. split; [done|]. intros [|x s'] c Heq; discriminate.
  - simpl. destruct (PyStr.rstrip s) as [|x u] eqn:Hu.
    + rewrite app_empty_l in Hs. subst s. destruct (PyStr.is_space c) eqn:Hc.
      * exists (String c r). split; [done|]. split; [by simpl; rewrite Hc|].
        intros [|y s'] d Heq; discriminate.
      * exists r. split; [done|]. split; [done|].
        intros [|y s'] d Heq.
        -- rewrite app_empty_l in Heq. by injection Heq as <-.
        -- rewrite app_cons in Heq. injection Heq as _ Heq. by destruct s'.
    + exists r. rewrite app_cons, <- Hs. split; [done|]. split; [done|].
      intros [|y s'] d Heq.
      * rewrite app_empty_l in Heq. injection Heq as _ Heq. discriminate.
      * rewrite app_cons in Heq. injection Heq as _ Heq. by apply (Hclean s').
Qed.

Lemma lstrip_spec s :
  exists l, s = l +:+ PyStr.lstrip s /\ PyStr.all_space l = true
            /\ clean_head (PyStr.lstrip s).
Proof.
  induction s as [|c s (l & Hs & Hl & Hclean)].
  - exists "". split; [done|]. split; [done|]. intros c s' Heq; discriminate.
  - simpl. destruct (PyStr.is_space c) eqn:Hc.
    + exists (String c l). rewrite app_cons, <- Hs. split; [done|]. split; [|done].
      by simpl; rewrite Hc.
    + exists "". split; [done|]. split; [done|].
      intros d s' Heq. by injection Heq as <- _.
Qed.

Lemma strip_spec s : trimmed_of s (PyStr.strip s).
Proof.
  unfold PyStr.strip.
  destruct (rstrip_spec s) as (r & Hs & Hr & Htail).
  destruct (lstrip_spec (PyStr.rstrip s)) as (l & Hu & Hl & Hhead).
  exists l, r. split; [|split; [done|split; [done|split; [done|]]]].
  - rewrite <- app_assoc3, <- Hu. exact Hs.
  - intros s' c Heq. apply (Htail (l +:+ s')).
    rewrite Hu at 1. rewrite Heq. by rewrite app_assoc3.
Qed.

End StringFacts.

(* ================================================================== *)
(** * The check loop *)
(* ================================================================== *)

Section CheckLoop.

Variable env : Env.
Variable total : nat.

Implicit Types (st : CheckState) (b : Book) (idx i j : nat) (idxs : list nat).

Lemma scan_items_first t its item :
  scan_items t its = Some item <-> first_genuine t its item.
Proof.
  unfold first_genuine. induction its as [|x its IH]; simpl.
  - split; [done|]. intros ([|??] & ? & ? & _); discriminate.
  - destruct (genuine_match t x) eqn:Hx.
    + split.
      * intros [= ->]. exists [], its. by repeat split.
      * intros ([|y pre] & post & Heq & Hg & Hpre).
        -- by injection Heq as ->.
        -- injection Heq as -> _. apply Forall_cons in Hpre as [Hy _]. congruence.
    + rewrite IH. split.
      * intros (pre & post & -> & Hg & Hpre). exists (x :: pre), post.
        split; [done|]. split; [done|]. by constructor.
      * intros ([|y pre] & post & Heq & Hg & Hpre).
        -- injection Heq as -> _. congruence.
        -- injection Heq as _ ->. apply Forall_cons in Hpre as [_ Hpre].
           by exists pre, post.
Qed.

Lemma scan_items_none t its :
  scan_items t its = None <-> Forall (fun item => genuine_match t item = false) its.
Proof.
  induction its as [|x its IH]; simpl.
  - split; [by constructor | done].
  - destruct (genuine_match t x) eqn:Hx.
    + split; [done|]. intros [Hx' _]%Forall_cons. congruence.
    + rewrite IH. split; [by constructor | by intros [_ ?]%Forall_cons].
Qed.

Lemma check_book_length idx st :
  length (cs_books (check_book env total idx st)) = length (cs_books st).
Proof.
  unfold check_book. destruct (cs_books st !! idx) as [b|]; [|done].
  destruct (search_library _ _ _) as [[data|] ev]; [|done].
  destruct (scan_items _ _); [case_bool_decide|]; simpl; by rewrite length_insert.
Qed.

Lemma check_book_other idx st j :
  j <> idx -> cs_books (check_book env total idx st) !! j = cs_books st !! j.
Proof.
  intros Hj. unfold check_book. destruct (cs_books st !! idx) as [b|]; [|done].
  destruct (search_library _ _ _) as [[data|] ev]; [|done].
  destruct (scan_items _ _); [case_bool_decide|]; simpl;
    by rewrite list_lookup_insert_ne.
Qed.

Lemma check_book_at idx st b :
  cs_books st !! idx = Some b ->
  exists b', cs_books (check_book env total idx st) !! idx = Some b'
             /\ entry_outcome env idx b b'.
Proof.
  intros Hb. pose proof (lookup_lt_Some _ _ _ Hb) as Hlt.
  unfold check_book, entry_outcome, response_of. rewrite Hb.
  destruct (search_library _ _ _) as [[data|] ev]; simpl; [|by exists b].
  destruct (scan_items _ _); [case_bool_decide|]; simpl;
    rewrite list_lookup_insert_eq by done; eexists; (split; [done|]); by repeat split.
Qed.

Lemma check_book_new_finds idx st b :
  cs_books st !! idx = Some b ->
  cs_new_finds (check_book env total idx st)
  = cs_new_finds st ++ match new_find_of env idx b with
                       | Some item => [(idx, item)]
                       | None => []
                       end.
Proof.
  intros Hb. unfold check_book, new_find_of, response_of. rewrite Hb.
  destruct (search_library _ _ _) as [[data|] ev]; simpl; [|by rewrite app_nil_r].
  destruct (scan_items _ _); case_bool_decide; simpl; by rewrite ?app_nil_r.
Qed.

Lemma check_loop_length idxs st :
  length (cs_books (check_loop env total idxs st)) = length (cs_books st).
Proof.
  revert st. induction idxs as [|idx idxs IH]; intros st; [done|].
  simpl. by rewrite IH, check_book_length.
Qed.

Lemma check_loop_other idxs st j :
  j ∉ idxs -> cs_books (check_loop env total idxs st) !! j = cs_books st !! j.
Proof.
  revert st. induction idxs as [|idx idxs IH]; intros st Hj; [done|].
  apply not_elem_of_cons in Hj as [Hne Hj]. simpl.
  by rewrite IH, check_book_other.
Qed.

Lemma check_loop_at idxs st i b :
  NoDup idxs -> i ∈ idxs -> cs_books st !! i = Some b ->
  exists b', cs_books (check_loop env total idxs st) !! i = Some b'
             /\ entry_outcome env i b b'.
Proof.
  revert st. induction idxs as [|idx idxs IH]; intros st Hnd Hi Hb.
  - by apply elem_of_nil in Hi.
  - apply NoDup_cons in Hnd as [Hfresh Hnd]. simpl.
    apply elem_of_cons in Hi as [->|Hi].
    + destruct (check_book_at idx st b Hb) as (b' & Hb' & Hout).
      exists b'. split; [|done]. by rewrite check_loop_other.
    + apply IH; [done..|]. rewrite check_book_other; [done|].
      intros ->. contradiction.
Qed.

End CheckLoop.

(* ================================================================== *)
(** * One check run *)
(* ================================================================== *)

Section CheckPass.

Variable env : Env.

Implicit Types (bs : list Book) (b : Book) (i : nat) (item : Item).

Lemma check_loop_new_finds_eq total idxs bs st :
  NoDup idxs ->
  (forall j, j ∈ idxs -> cs_books st !! j = bs !! j) ->
  cs_new_finds (check_loop env total idxs st)
  = cs_new_finds st ++ flat_map (new_find_entries env bs) idxs.
Proof.
  revert st. induction idxs as [|idx idxs IH]; intros st Hnd Hsame.
  - simpl. by rewrite app_nil_r.
  - apply NoDup_cons in Hnd as [Hfresh Hnd]. simpl. rewrite IH; [|done|].
    + rewrite app_assoc. f_equal. unfold new_find_entries.
      rewrite <- (Hsame idx) by by left.
      destruct (cs_books st !! idx) as [b|] eqn:Hb.
      * by apply check_book_new_finds.
      * unfold check_book. rewrite Hb. by rewrite app_nil_r.
    + intros j Hj. rewrite check_book_other; [apply Hsame; by right|].
      intros ->. contradiction.
Qed.

Lemma new_find_entries_fst bs idxs :
  (flat_map (new_find_entries env bs) idxs).*1 `sublist_of` idxs.
Proof.
  induction idxs as [|idx idxs IH]; [done|]. simpl. rewrite fmap_app.
  unfold new_find_entries at 1.
  destruct (bs !! idx) as [b|]; [destruct (new_find_of env idx b)|]; simpl.
  - by apply sublist_skip.
  - by apply sublist_cons.
  - by apply sublist_cons.
Qed.

Lemma check_pass_new_finds bs :
  cs_new_finds (check_pass env bs)
  = flat_map (new_find_entries env bs) (seq 0 (length bs)).
Proof.
  unfold check_pass.
  rewrite (check_loop_new_finds_eq _ _ bs); [done | apply NoDup_seq | done].
Qed.

Lemma check_pass_length bs : length (cs_books (check_pass env bs)) = length bs.
Proof. unfold check_pass. by rewrite check_loop_length. Qed.

Lemma check_pass_at bs i b :
  bs !! i = Some b ->
  exists b', cs_books (check_pass env bs) !! i = Some b' /\ entry_outcome env i b b'.
Proof.
  intros Hb. unfold check_pass. apply check_loop_at; [apply NoDup_seq | | done].
  apply elem_of_seq. pose proof (lookup_lt_Some _ _ _ Hb). lia.
Qed.

Lemma check_pass_new_find_iff bs i b item :
  bs !! i = Some b ->
  (i, item) ∈ cs_new_finds (check_pass env bs) <-> new_find_of env i b = Some item.
Proof.
  intros Hb. rewrite check_pass_new_finds, list_elem_of_In, in_flat_map. split.
  - intros (j & _ & Hj). unfold new_find_entries in Hj.
    destruct (bs !! j) as [bj|] eqn:Hbj; [|done].
    destruct (new_find_of env j bj) as [it|] eqn:Hnf; [|done].
    destruct Hj as [[= -> ->]|[]]. congruence.
  - intros Hnf. exists i. split.
    + apply in_seq. pose proof (lookup_lt_Some _ _ _ Hb). lia.
    + unfold new_find_entries. rewrite Hb, Hnf. by left.
Qed.

Lemma pauses_app tr1 tr2 : pauses (tr1 ++ tr2) = pauses tr1 + pauses tr2.
Proof. unfold pauses. by rewrite List.filter_app, length_app. Qed.

Lemma requests_app tr1 tr2 : requests (tr1 ++ tr2) = requests tr1 + requests tr2.
Proof. unfold requests. by rewrite List.filter_app, length_app. Qed.

Lemma check_book_events total idx st b :
  cs_books st !! idx = Some b ->
  pauses (cs_trace (check_book env total idx st))
  = pauses (cs_trace st)
    + (if bool_decide (is_Some (response_of env idx b)) && (idx <? total - 1)
       then 1 else 0)
  /\ requests (cs_trace (check_book env total idx st)) = S (requests (cs_trace st)).
Proof.
  intros Hb. unfold check_book, response_of. rewrite Hb.
  destruct (remote env idx (library b) (book_query b)); simpl;
    [destruct (scan_items _ _); [case_bool_decide|]; simpl;
       rewrite !pauses_app, !requests_app; destruct (idx <? total - 1);
       unfold pauses, requests; simpl; split; lia
    | rewrite pauses_app, requests_app; unfold pauses, requests; simpl; split; lia ..].
Qed.

(** The pauses of a pass: one after each answered search that is not
    the last entry's, none after a failed one. Every entry is queried
    once. *)
Lemma check_loop_events total idxs bs st :
  NoDup idxs ->
  (forall j, j ∈ idxs -> cs_books st !! j = bs !! j) ->
  (forall j, j ∈ idxs -> j < length bs) ->
  pauses (cs_trace (check_loop env total idxs st))
  = pauses (cs_trace st)
    + length (List.filter (fun j => answered env bs j && (j <? total - 1)) idxs)
  /\ requests (cs_trace (check_loop env total idxs st))
     = requests (cs_trace st) + length idxs.
Proof.
  revert st. induction idxs as [|idx idxs IH]; intros st Hnd Hsame Hlt.
  - simpl. split; lia.
  - apply NoDup_cons in Hnd as [Hfresh Hnd]. simpl.
    destruct (lookup_lt_is_Some_2 bs idx) as [b Hb]; [apply Hlt; by left|].
    assert (cs_books st !! idx = Some b) as Hst by (rewrite Hsame; [done | by left]).
    destruct (check_book_events total idx st b Hst) as [Hp Hr].
    destruct (IH (check_book env total idx st)) as [Hp' Hr']; [done | | |].
    + intros j Hj. rewrite check_book_other; [apply Hsame; by right|].
      intros ->. contradiction.
    + intros j Hj. apply Hlt. by right.
    + rewrite Hp', Hr', Hp, Hr. unfold answered at 2. rewrite Hb.
      destruct (bool_decide (is_Some (response_of env idx b)) && (idx <? total - 1));
        simpl; split; lia.
Qed.

Lemma check_pass_events bs :
  pauses (cs_trace (check_pass env bs))
  = length (List.filter (fun j => answered env bs j && (j <? length bs - 1))
              (seq 0 (length bs)))
  /\ requests (cs_trace (check_pass env bs)) = length bs.
Proof.
  unfold check_pass.
  destruct (check_loop_events (length bs) (seq 0 (length bs)) bs
              {| cs_books := bs; cs_new_finds := []; cs_trace := [] |})
    as [Hp Hr]; [apply NoDup_seq | done | |].
  - intros j Hj%elem_of_seq. lia.
  - rewrite Hp, Hr, length_seq. done.
Qed.

Lemma cmd_check_exit args dd : exit_code (cmd_check args env dd) = 0%Z.
Proof.
  unfold cmd_check. by destruct (books (load_watchlist dd (c_profile args))).
Qed.

Lemma load_save dd w profile :
  load_watchlist (save_watchlist dd w profile).1 profile = w.
Proof. unfold load_watchlist, save_watchlist. simpl. by rewrite lookup_insert_eq. Qed.

Lemma cmd_check_stored args dd :
  stored_books (data_dir (cmd_check args env dd)) (c_profile args)
  = cs_books (check_pass env (stored_books dd (c_profile args))).
Proof.
  unfold stored_books, cmd_check.
  destruct (books (load_watchlist dd (c_profile args))) as [|b0 bs] eqn:Hbs.
  - simpl. by rewrite Hbs.
  - unfold save_watchlist, load_watchlist. simpl. by rewrite lookup_insert_eq.
Qed.

Lemma cmd_check_at args dd i b :
  stored_books dd (c_profile args) !! i = Some b ->
  exists b', stored_books (data_dir (cmd_check args env dd)) (c_profile args) !! i = Some b'
             /\ entry_outcome env i b b'.
Proof. intros Hb. rewrite cmd_check_stored. by apply check_pass_at. Qed.

End CheckPass.

(* ================================================================== *)
(** * The match evaluator *)
(* ================================================================== *)

(** C8. [title_matches] compares the lower-cased, whitespace-trimmed
    forms of its two arguments and answers [true] exactly when one of
    them occurs inside the other; it accepts ("Dune", "Dune Messiah")
    and ("The Hobbit", "hobbit") and rejects ("Foo", "Bar"). *)
Theorem title_matches_bidirectional_containment :
  (forall s r : string,
     let a := PyStr.strip (PyStr.lower s) in
     let b := PyStr.strip (PyStr.lower r) in
     trimmed_of (PyStr.lower s) a /\ trimmed_of (PyStr.lower r) b
     /\ (title_matches s r = true <-> substring_of a b \/ substring_of b a))
  /\ title_matches "Dune" "Dune Messiah" = true
  /\ title_matches "The Hobbit" "hobbit" = true
  /\ title_matches "Foo" "Bar" = false.
Proof.
  split; [|by vm_compute].
  intros s r a b. split; [apply strip_spec|]. split; [apply strip_spec|].
  unfold title_matches. fold a b.
  by rewrite orb_true_iff, !contains_spec.
Qed.

Lemma title_matches_blank t r : PyStr.all_space t = true -> title_matches t r = true.
Proof.
  intros Ht. unfold title_matches.
  rewrite (strip_all_space (PyStr.lower t)) by by rewrite all_space_lower.
  by rewrite contains_empty.
Qed.

(* ================================================================== *)
(** * What a check run does to an entry *)
(* ================================================================== *)

Lemma new_find_of_spec env i b item :
  new_find_of env i b = Some item
  <-> last_status b = "not_found"
      /\ exists data, response_of env i b = Some data
           /\ first_genuine (title b) (default [] (items data)) item.
Proof.
  unfold new_find_of. destruct (response_of env i b) as [data|].
  - case_bool_decide as Hprev.
    + rewrite scan_items_first. split.
      * intros Hfirst. split; [done|]. by exists data.
      * by intros (_ & data' & [= <-] & Hfirst).
    + split; [done|]. by intros [? _].
  - split; [done|]. by intros (_ & data & ? & _).
Qed.

Lemma entry_outcome_found_date env i b b' :
  entry_outcome env i b b' ->
  found_date b' = match new_find_of env i b with
                  | Some _ => Some (now_date env i)
                  | None => found_date b
                  end.
Proof.
  unfold entry_outcome, new_find_of.
  destruct (response_of env i b) as [data|]; [|by intros ->].
  intros (_ & _ & _ & _ & _ & Hrest).
  destruct (scan_items _ _); destruct Hrest as [_ ->]; by case_bool_decide.
Qed.

Lemma check_runs_keeps_found_date args envs dd i b :
  stored_books dd (c_profile args) !! i = Some b ->
  is_Some (found_date b) ->
  exists b', stored_books (check_runs args envs dd) (c_profile args) !! i = Some b'
             /\ is_Some (found_date b').
Proof.
  revert dd b. induction envs as [|env envs IH]; intros dd b Hb Hset.
  - by exists b.
  - simpl. destruct (cmd_check_at env args dd i b Hb) as (b1 & Hb1 & Hout).
    apply (IH _ b1 Hb1). rewrite (entry_outcome_found_date _ _ _ _ Hout).
    by destruct (new_find_of env i b).
Qed.

(** C1, as the code has it. One check run rewrites an entry's
    [found_date] exactly when the entry was [not_found] before and the
    search of this round succeeded with a genuine match; the new value
    is the current date. In every other round it is left as it was, so
    over any sequence of check runs a set [found_date] stays set. *)
Theorem found_date_rewritten_only_by_new_find
    (args : CheckArgs) (env : Env) (envs : list Env) (dd : DataDir)
    (i : nat) (b : Book) :
  stored_books dd (c_profile args) !! i = Some b ->
  (exists b',
      stored_books (data_dir (cmd_check args env dd)) (c_profile args) !! i = Some b'
      /\ ((last_status b = "not_found"
           /\ exists data item, response_of env i b = Some data
                /\ first_genuine (title b) (default [] (items data)) item)
          -> found_date b' = Some (now_date env i))
      /\ (~ (last_status b = "not_found"
             /\ exists data item, response_of env i b = Some data
                  /\ first_genuine (title b) (default [] (items data)) item)
          -> found_date b' = found_date b))
  /\ (is_Some (found_date b) ->
      exists b'',
        stored_books (check_runs args envs dd) (c_profile args) !! i = Some b''
        /\ is_Some (found_date b'')).
Proof.
  intros Hb. split; [|by apply check_runs_keeps_found_date].
  destruct (cmd_check_at env args dd i b Hb) as (b' & Hb' & Hout).
  exists b'. split; [done|].
  rewrite (entry_outcome_found_date _ _ _ _ Hout).
  destruct (new_find_of env i b) as [item|] eqn:Hnf.
  - split; [done|]. intros Hno. destruct Hno.
    apply new_find_of_spec in Hnf as (Hprev & data & Hdata & Hfirst).
    split; [done|]. by exists data, item.
  - split; [|done]. intros (Hprev & data & item & Hdata & Hfirst).
    assert (new_find_of env i b = Some item) as Hsome; [|congruence].
    apply new_find_of_spec. split; [done|]. by exists data.
Qed.

(** C2. In one check run, the entry at position [i] is appended to
    [new_finds] together with [item] if and only if its previous
    [last_status] was [not_found] and [item] is the first element of
    the search response that title-matches and is owned; no entry is
    appended twice, an entry that was already [found] is never
    appended, and the match test does not look at availability. *)
Theorem new_find_iff_not_found_and_first_match
    (env : Env) (bs : list Book) (i : nat) (b : Book) (item : Item) :
  bs !! i = Some b ->
  ((i, item) ∈ cs_new_finds (check_pass env bs)
   <-> last_status b = "not_found"
       /\ exists data, response_of env i b = Some data
            /\ first_genuine (title b) (default [] (items data)) item)
  /\ NoDup (cs_new_finds (check_pass env bs)).*1
  /\ (last_status b = "found" ->
      forall other, (i, other) ∉ cs_new_finds (check_pass env bs))
  /\ (forall t x y, item_title x = item_title y -> isOwned x = isOwned y ->
        genuine_match t x = genuine_match t y).
Proof.
  intros Hb. split; [|split; [|split]].
  - by rewrite (check_pass_new_find_iff env bs i b item Hb), new_find_of_spec.
  - rewrite check_pass_new_finds.
    eapply sublist_NoDup; [apply NoDup_seq | apply new_find_entries_fst].
  - intros Hfound other Hin.
    apply (check_pass_new_find_iff env bs i b other Hb) in Hin.
    apply new_find_of_spec in Hin as [Hprev _]. congruence.
  - intros t x y Ht Ho. unfold genuine_match. by rewrite Ht, Ho.
Qed.

(** C5. In every check run the exit code is 0 and the watchlist keeps
    its length; an entry whose search failed is stored back exactly as
    it was ([last_status], [last_checked] and [found_date] included),
    and an entry whose search succeeded gets the time of the check, the
    status this round's match decides and, on a new find, the date. *)
Theorem failed_search_leaves_entry_untouched
    (args : CheckArgs) (env : Env) (dd : DataDir) (i : nat) (b : Book) :
  stored_books dd (c_profile args) !! i = Some b ->
  exit_code (cmd_check args env dd) = 0%Z
  /\ length (stored_books (data_dir (cmd_check args env dd)) (c_profile args))
     = length (stored_books dd (c_profile args))
  /\ exists b',
      stored_books (data_dir (cmd_check args env dd)) (c_profile args) !! i = Some b'
      /\ (response_of env i b = None ->
          b' = b /\ last_status b' = last_status b
          /\ last_checked b' = last_checked b /\ found_date b' = found_date b)
      /\ (forall data, response_of env i b = Some data ->
          title b' = title b /\ author b' = author b /\ library b' = library b
          /\ added b' = added b
          /\ last_checked b' = Some (now_stamp env i)
          /\ last_status b' =
               (if existsb (genuine_match (title b)) (default [] (items data))
                then "found" else "not_found")
          /\ found_date b' =
               (if existsb (genuine_match (title b)) (default [] (items data))
                   && bool_decide (last_status b = "not_found")
                then Some (now_date env i) else found_date b)).
Proof.
  intros Hb. split; [apply cmd_check_exit|]. split.
  { by rewrite cmd_check_stored, check_pass_length. }
  destruct (cmd_check_at env args dd i b Hb) as (b' & Hb' & Hout).
  exists b'. split; [done|]. unfold entry_outcome in Hout.
  destruct (response_of env i b) as [data|].
  - split; [done|]. intros ? [= <-].
    destruct Hout as (Ht & Ha & Hl & Hadd & Hc & Hrest).
    do 5 (split; [done|]).
    destruct (scan_items _ _) as [item|] eqn:Hscan.
    + assert (existsb (genuine_match (title b)) (default [] (items data)) = true) as ->.
      { apply scan_items_first in Hscan as (pre & post & -> & Hg & _).
        apply existsb_exists. exists item. split; [|done].
        apply in_or_app. right. by left. }
      by destruct Hrest as [-> ->].
    + assert (existsb (genuine_match (title b)) (default [] (items data)) = false) as ->.
      { apply scan_items_none in Hscan. apply not_true_is_false.
        intros (x & Hx & Hg)%existsb_exists.
        rewrite Forall_forall in Hscan. apply list_elem_of_In in Hx.
        specialize (Hscan x Hx). congruence. }
      by destruct Hrest as [-> ->].
  - subst b'. split; [done|]. by intros data.
Qed.

(** C9. A watched title that is empty or all whitespace title-matches
    every result title; so, in a check run, an entry with such a title
    is stored as [found] whenever its search response lists any owned
    item. *)
Theorem blank_title_matches_any_owned_item (t : string) :
  PyStr.all_space t = true ->
  (forall r, title_matches t r = true)
  /\ (forall args env dd i b data,
        stored_books dd (c_profile args) !! i = Some b ->
        title b = t ->
        response_of env i b = Some data ->
        Exists (fun item => default false (isOwned item) = true)
               (default [] (items data)) ->
        exists b',
          stored_books (data_dir (cmd_check args env dd)) (c_profile args) !! i
          = Some b'
          /\ last_status b' = "found").
Proof.
  intros Ht. split; [intros r; by apply title_matches_blank|].
  intros args env dd i b data Hb Htitle Hdata Howned.
  destruct (cmd_check_at env args dd i b Hb) as (b' & Hb' & Hout).
  exists b'. split; [done|]. unfold entry_outcome in Hout. rewrite Hdata in Hout.
  destruct Hout as (_ & _ & _ & _ & _ & Hrest).
  destruct (scan_items _ _) eqn:Hscan; [by destruct Hrest|].
  apply scan_items_none in Hscan. apply Exists_exists in Howned as (x & Hx & Ho).
  rewrite Forall_forall in Hscan. specialize (Hscan x Hx).
  unfold genuine_match in Hscan. rewrite Htitle, title_matches_blank, Ho in Hscan; done.
Qed.

(* ================================================================== *)
(** * watch and unwatch *)
(* ================================================================== *)

Section WatchUnwatch.

Implicit Types (bs : list Book) (b : Book) (t : string) (dd : DataDir).

Lemma already_watching_spec t bs :
  already_watching t bs = true
  <-> Exists (fun b => PyStr.lower (title b) = PyStr.lower t) bs.
Proof.
  unfold already_watching. rewrite existsb_exists, Exists_exists. split.
  - intros (b & Hin & Hb). exists b. split; [by apply list_elem_of_In|].
    by apply bool_decide_eq_true in Hb.
  - intros (b & Hin & Hb). exists b. split; [by apply list_elem_of_In|].
    by apply bool_decide_eq_true.
Qed.

Lemma already_watching_lower t1 t2 bs :
  PyStr.lower t1 = PyStr.lower t2 -> already_watching t1 bs = already_watching t2 bs.
Proof. intros Heq. unfold already_watching. by rewrite Heq. Qed.

Lemma entries_for_none t bs : already_watching t bs = false -> entries_for t bs = [].
Proof.
  unfold already_watching, entries_for. induction bs as [|b bs IH]; [done|].
  simpl. intros [Hb Hbs]%orb_false_iff. rewrite Hb. by apply IH.
Qed.

Lemma entries_for_app t bs1 bs2 :
  entries_for t (bs1 ++ bs2) = entries_for t bs1 ++ entries_for t bs2.
Proof. unfold entries_for. apply List.filter_app. Qed.

Lemma entries_for_unique t bs :
  unique_titles bs -> already_watching t bs = true -> length (entries_for t bs) = 1.
Proof.
  unfold unique_titles. induction bs as [|b bs IH]; [done|].
  simpl. intros [Hfresh Hnd]%NoDup_cons Hex.
  unfold entries_for. simpl. case_bool_decide as Hb.
  - simpl. f_equal. fold (entries_for t bs). rewrite entries_for_none; [done|].
    apply not_true_is_false. intros (x & Hin & Hx)%already_watching_spec%Exists_exists.
    apply Hfresh. apply list_elem_of_fmap. exists x. split; [congruence | done].
  - by apply IH.
Qed.

Lemma load_config_watchlists dd :
  watchlist_files (load_config dd).1.2 = watchlist_files dd.
Proof. unfold load_config. by destruct (config_json dd). Qed.

Lemma stored_books_load_config dd profile :
  stored_books (load_config dd).1.2 profile = stored_books dd profile.
Proof. unfold stored_books, load_watchlist. by rewrite load_config_watchlists. Qed.

Lemma stored_books_save dd w profile :
  stored_books (save_watchlist dd w profile).1 profile = books w.
Proof. unfold stored_books. by rewrite load_save. Qed.

(** What [cmd_watch] leaves behind, by whether the title is there. *)
Lemma cmd_watch_cases args today dd :
  exit_code (cmd_watch args today dd) = 0%Z
  /\ config_json (data_dir (cmd_watch args today dd)) <> None
  /\ (if already_watching (w_title args) (stored_books dd (w_profile args))
      then data_dir (cmd_watch args today dd) = (load_config dd).1.2
      else exists b, title b = w_title args
             /\ stored_books (data_dir (cmd_watch args today dd)) (w_profile args)
                = stored_books dd (w_profile args) ++ [b]).
Proof.
  unfold cmd_watch.
  pose proof (stored_books_load_config dd (w_profile args)) as Hsame.
  assert (config_json (load_config dd).1.2 <> None) as Hcfg.
  { unfold load_config. destruct (config_json dd) eqn:Hc; simpl; congruence. }
  destruct (load_config dd) as [[config dd1] ev] eqn:Hload.
  unfold stored_books in *. simpl in *. rewrite Hsame.
  destruct (already_watching (w_title args) (books (load_watchlist dd (w_profile args))));
    simpl.
  - done.
  - split; [done|]. split; [done|]. eexists. split; [|unfold load_watchlist; simpl; by rewrite lookup_insert_eq].
    done.
Qed.

Lemma cmd_watch_present args today dd :
  config_json dd <> None ->
  already_watching (w_title args) (stored_books dd (w_profile args)) = true ->
  exit_code (cmd_watch args today dd) = 0%Z /\ data_dir (cmd_watch args today dd) = dd.
Proof.
  intros Hcfg Haw. destruct (cmd_watch_cases args today dd) as (Hexit & _ & Hdir).
  split; [done|]. rewrite Haw in Hdir. rewrite Hdir.
  unfold load_config. by destruct (config_json dd) eqn:Hc.
Qed.

(** The commands keep the watchlist free of case-folded duplicates. *)
Lemma cmd_watch_unique args today dd :
  unique_titles (stored_books dd (w_profile args)) ->
  unique_titles (stored_books (data_dir (cmd_watch args today dd)) (w_profile args)).
Proof.
  intros Huniq. destruct (cmd_watch_cases args today dd) as (_ & _ & Hcase).
  destruct (already_watching _ _) eqn:Haw.
  - by rewrite Hcase, stored_books_load_config.
  - destruct Hcase as (b & Hb & ->). unfold unique_titles in *.
    rewrite fmap_app. apply NoDup_app. split; [done|]. split; [|apply NoDup_singleton].
    intros x (y & -> & Hy)%list_elem_of_fmap [= Heq]%list_elem_of_singleton.
    apply not_true_iff_false in Haw. apply Haw, already_watching_spec, Exists_exists.
    exists y. split; [done|]. by rewrite <- Hb.
Qed.

Lemma filter_sublist_of {A} (f : A -> bool) (l : list A) :
  List.filter f l `sublist_of` l.
Proof.
  induction l as [|x l IH]; [done|]. simpl.
  destruct (f x); [by apply sublist_skip | by apply sublist_cons].
Qed.

(** C6. On a watchlist with at most one entry per case-folded title,
    watching a title and then watching it again (in any letter case,
    with any author or library option) exits with code 0 both times
    and leaves exactly one entry for that title; the second run changes
    nothing in the data directory. *)
Theorem watch_twice_keeps_one_entry
    (args1 args2 : WatchArgs) (today1 today2 : string) (dd : DataDir) :
  w_profile args1 = w_profile args2 ->
  PyStr.lower (w_title args1) = PyStr.lower (w_title args2) ->
  unique_titles (stored_books dd (w_profile args1)) ->
  let out1 := cmd_watch args1 today1 dd in
  let out2 := cmd_watch args2 today2 (data_dir out1) in
  exit_code out1 = 0%Z /\ exit_code out2 = 0%Z
  /\ length (entries_for (w_title args1)
               (stored_books (data_dir out2) (w_profile args1))) = 1
  /\ length (entries_for (w_title args2)
               (stored_books (data_dir out2) (w_profile args1))) = 1
  /\ data_dir out2 = data_dir out1.
Proof.
  intros Hprof Hlow Huniq out1 out2.
  destruct (cmd_watch_cases args1 today1 dd) as (Hexit1 & Hcfg1 & Hcase).
  fold out1 in Hexit1, Hcfg1, Hcase.
  assert (already_watching (w_title args1)
            (stored_books (data_dir out1) (w_profile args1)) = true
          /\ length (entries_for (w_title args1)
                       (stored_books (data_dir out1) (w_profile args1))) = 1)
    as [Haw1 Hone].
  { destruct (already_watching (w_title args1) (stored_books dd (w_profile args1)))
      eqn:Haw.
    - rewrite Hcase, stored_books_load_config. split; [done|].
      by apply entries_for_unique.
    - destruct Hcase as (b & Hb & ->). split.
      + apply already_watching_spec, Exists_app. right. constructor. by rewrite Hb.
      + rewrite entries_for_app, (entries_for_none _ _ Haw). simpl.
        unfold entries_for. simpl. by rewrite bool_decide_eq_true_2 by by rewrite Hb. }
  destruct (cmd_watch_present args2 today2 (data_dir out1) Hcfg1) as [Hexit2 Hdir2].
  { rewrite <- Hprof. by rewrite <- (already_watching_lower _ _ _ Hlow). }
  fold out2 in Hexit2, Hdir2. rewrite Hdir2.
  split; [done|]. split; [done|]. split; [done|]. split; [|done].
  unfold entries_for in *. by rewrite <- Hlow.
Qed.

Lemma filter_keeps_all {A} (f : A -> bool) (l : list A) :
  Forall (fun x => f x = true) l -> List.filter f l = l.
Proof.
  induction l as [|x l IH]; [done|]. intros [Hx Hl]%Forall_cons.
  simpl. rewrite Hx. f_equal. by apply IH.
Qed.

Lemma filter_length_le' {A} (f : A -> bool) (l : list A) :
  length (List.filter f l) <= length l.
Proof. induction l as [|x l IH]; [done|]. simpl. destruct (f x); simpl; lia. Qed.

Lemma filter_drops_some {A} (f : A -> bool) (l : list A) :
  Exists (fun x => f x = false) l -> length (List.filter f l) < length l.
Proof.
  induction l as [|x l IH]; intros Hex; [by apply Exists_nil in Hex|].
  apply Exists_cons in Hex as [Hx|Hl]; simpl.
  - rewrite Hx. pose proof (filter_length_le' f l). lia.
  - specialize (IH Hl). destruct (f x); simpl; lia.
Qed.

(** C7. When no entry has the case-folded title of the argument,
    [unwatch] exits with code 1, leaves the data directory as it was
    and writes no watchlist file; when some entry has it, [unwatch]
    exits with code 0. *)
Theorem unwatch_unknown_title_exits_1 (args : UnwatchArgs) (dd : DataDir) :
  let bs := stored_books dd (u_profile args) in
  let out := cmd_unwatch args dd in
  (Forall (fun b => PyStr.lower (title b) <> PyStr.lower (u_title args)) bs ->
     exit_code out = 1%Z /\ data_dir out = dd /\ writes (trace out) = []
     /\ stored_books (data_dir out) (u_profile args) = bs)
  /\ (Exists (fun b => PyStr.lower (title b) = PyStr.lower (u_title args)) bs ->
     exit_code out = 0%Z).
Proof.
  intros bs out. unfold out, cmd_unwatch. fold (stored_books dd (u_profile args)).
  fold bs. split.
  - intros Hnone. rewrite filter_keeps_all.
    + simpl. by rewrite Nat.ltb_irrefl.
    + eapply Forall_impl; [exact Hnone|]. intros b Hb. simpl.
      by rewrite bool_decide_eq_false_2.
  - intros Hsome. simpl.
    assert (length (List.filter
              (fun b => negb (bool_decide (PyStr.lower (title b)
                                           = PyStr.lower (u_title args)))) bs)
            < length bs) as Hlt.
    { apply filter_drops_some. eapply Exists_impl; [exact Hsome|].
      intros b Hb. simpl. by rewrite bool_decide_eq_true_2. }
    apply Nat.ltb_lt in Hlt. by rewrite Hlt.
Qed.

Lemma cmd_unwatch_stored args dd :
  stored_books (data_dir (cmd_unwatch args dd)) (u_profile args)
  = List.filter
      (fun b => negb (bool_decide (PyStr.lower (title b) = PyStr.lower (u_title args))))
      (stored_books dd (u_profile args)).
Proof.
  set (keep := fun b : Book =>
         negb (bool_decide (PyStr.lower (title b) = PyStr.lower (u_title args)))).
  set (before := stored_books dd (u_profile args)).
  unfold cmd_unwatch. fold (stored_books dd (u_profile args)).
  fold before. fold keep. simpl.
  destruct (length (List.filter keep before) <? length before) eqn:Hlt; simpl.
  - apply stored_books_save.
  - fold before. symmetry. apply filter_keeps_all. apply Forall_forall.
    intros b Hb. destruct (keep b) eqn:Hk; [done|].
    apply Nat.ltb_ge in Hlt. assert (length (List.filter keep before) < length before).
    { apply filter_drops_some, Exists_exists. by exists b. }
    lia.
Qed.

(** C10. After [unwatch], the stored watchlist is the earlier one
    without the entries whose case-folded title is that of the
    argument: none of them remains, however many there were, every
    other entry is still there, and the order is the earlier order. *)
Theorem unwatch_removes_every_match (args : UnwatchArgs) (dd : DataDir) :
  let before := stored_books dd (u_profile args) in
  let after := stored_books (data_dir (cmd_unwatch args dd)) (u_profile args) in
  Forall (fun b => PyStr.lower (title b) <> PyStr.lower (u_title args)) after
  /\ (forall b, b ∈ before ->
        PyStr.lower (title b) <> PyStr.lower (u_title args) -> b ∈ after)
  /\ after `sublist_of` before
  /\ after = List.filter
               (fun b => negb (bool_decide (PyStr.lower (title b)
                                            = PyStr.lower (u_title args)))) before.
Proof.
  intros before after. unfold after, before. rewrite cmd_unwatch_stored.
  split; [|split; [|split; [|done]]].
  - apply Forall_forall. intros b Hb%list_elem_of_In%List.filter_In.
    destruct Hb as [_ Hk].
    apply negb_true_iff in Hk. by apply bool_decide_eq_false in Hk.
  - intros b Hb Hne. apply list_elem_of_In, List.filter_In.
    split; [by apply list_elem_of_In|]. by rewrite bool_decide_eq_false_2.
  - apply filter_sublist_of.
Qed.

Lemma cmd_unwatch_unique args dd :
  unique_titles (stored_books dd (u_profile args)) ->
  unique_titles (stored_books (data_dir (cmd_unwatch args dd)) (u_profile args)).
Proof.
  unfold unique_titles. intros Huniq.
  eapply sublist_NoDup; [exact Huniq|]. apply fmap_sublist.
  rewrite cmd_unwatch_stored. apply filter_sublist_of.
Qed.

Lemma entry_outcome_title env i b b' : entry_outcome env i b b' -> title b' = title b.
Proof.
  unfold entry_outcome. destruct (response_of env i b); [by intros [? _] | by intros ->].
Qed.

Lemma cmd_check_unique args env dd :
  unique_titles (stored_books dd (c_profile args)) ->
  unique_titles (stored_books (data_dir (cmd_check args env dd)) (c_profile args)).
Proof.
  unfold unique_titles. intros Huniq.
  assert ((fun b => PyStr.lower (title b))
            <$> stored_books (data_dir (cmd_check args env dd)) (c_profile args)
          = (fun b => PyStr.lower (title b)) <$> stored_books dd (c_profile args))
    as ->; [|done].
  apply list_eq. intros i. rewrite !list_lookup_fmap.
  destruct (stored_books dd (c_profile args) !! i) as [b|] eqn:Hb.
  - destruct (cmd_check_at env args dd i b Hb) as (b' & -> & Hout). simpl.
    by rewrite (entry_outcome_title _ _ _ _ Hout).
  - rewrite lookup_ge_None_2; [done|].
    rewrite cmd_check_stored, check_pass_length. by apply lookup_ge_None.
Qed.

End WatchUnwatch.

(* ================================================================== *)
(** * Concrete runs *)
(* ================================================================== *)

Section Runs.

Import Sample.

(** C1, as stated, fails: an entry found on 2024-01-01 that drops out
    of the catalogue in one run and is found again in the next gets the
    date of the second find. *)
Lemma found_date_overwritten_on_refind :
  ~ found_date_frozen (check_args false)
      [env_answering [] "2024-02-02"; env_answering [dune_item] "2024-03-03"]
      (dir [book "Dune" "found" (Some "2024-01-01")]) 0.
Proof.
  intros Hfrozen.
  destruct (Hfrozen (book "Dune" "found" (Some "2024-01-01")) "2024-01-01"
              eq_refl eq_refl) as (b' & Hb' & Hdate).
  vm_compute in Hb'. injection Hb' as <-. discriminate Hdate.
Qed.

Lemma found_date_rewritten_only_by_new_find_witness :
  stored_books (dir [book "Dune" "not_found" (Some "2024-01-01")]) None !! 0
  = Some (book "Dune" "not_found" (Some "2024-01-01"))
  /\ exists b',
      stored_books
        (data_dir (cmd_check (check_args false) (env_answering [dune_item] "2024-03-03")
                     (dir [book "Dune" "not_found" (Some "2024-01-01")]))) None !! 0
      = Some b'
      /\ found_date b' = Some "2024-03-03".
Proof.
  split; [reflexivity|].
  destruct (found_date_rewritten_only_by_new_find
              (check_args false) (env_answering [dune_item] "2024-03-03") []
              (dir [book "Dune" "not_found" (Some "2024-01-01")]) 0
              (book "Dune" "not_found" (Some "2024-01-01")) eq_refl)
    as [(b' & Hb' & Hnew & _) _].
  exists b'. split; [exact Hb'|]. apply Hnew. split; [reflexivity|].
  exists (response [dune_item]), dune_item. split; [reflexivity|].
  exists [], []. split; [reflexivity|]. split; [vm_compute; reflexivity | constructor].
Defined.

Lemma new_find_iff_not_found_and_first_match_witness :
  [book "Dune" "not_found" None] !! 0 = Some (book "Dune" "not_found" None)
  /\ (0, dune_item)
       ∈ cs_new_finds (check_pass (env_answering [unowned_item; dune_item] "2024-03-03")
                         [book "Dune" "not_found" None]).
Proof.
  split; [reflexivity|].
  apply (new_find_iff_not_found_and_first_match
           (env_answering [unowned_item; dune_item] "2024-03-03")
           [book "Dune" "not_found" None] 0 (book "Dune" "not_found" None) dune_item
           eq_refl).
  split; [reflexivity|].
  exists (response [unowned_item; dune_item]). split; [reflexivity|].
  exists [unowned_item], []. split; [reflexivity|].
  split; [vm_compute; reflexivity|]. constructor; [vm_compute; reflexivity | constructor].
Defined.

Lemma failed_search_leaves_entry_untouched_witness :
  stored_books (dir [book "Foo" "found" (Some "2024-01-01");
                     book "Dune" "not_found" None]) None !! 0
  = Some (book "Foo" "found" (Some "2024-01-01"))
  /\ exit_code (cmd_check (check_args false) (env_failing_at 0 [dune_item] "2024-03-03")
                  (dir [book "Foo" "found" (Some "2024-01-01");
                        book "Dune" "not_found" None])) = 0%Z
  /\ exists b',
      stored_books
        (data_dir (cmd_check (check_args false)
                     (env_failing_at 0 [dune_item] "2024-03-03")
                     (dir [book "Foo" "found" (Some "2024-01-01");
                           book "Dune" "not_found" None]))) None !! 0
      = Some b'
      /\ b' = book "Foo" "found" (Some "2024-01-01").
Proof.
  split; [reflexivity|].
  destruct (failed_search_leaves_entry_untouched
              (check_args false) (env_failing_at 0 [dune_item] "2024-03-03")
              (dir [book "Foo" "found" (Some "2024-01-01");
                    book "Dune" "not_found" None])
              0 (book "Foo" "found" (Some "2024-01-01")) eq_refl)
    as (Hexit & _ & b' & Hb' & Hfail & _).
  split; [exact Hexit|]. exists b'. split; [exact Hb'|].
  apply Hfail. reflexivity.
Defined.

Lemma blank_title_matches_any_owned_item_witness :
  PyStr.all_space "  " = true
  /\ title_matches "  " "Dune" = true
  /\ exists b',
      stored_books
        (data_dir (cmd_check (check_args false) (env_answering [dune_item] "2024-03-03")
                     (dir [book "  " "not_found" None]))) None !! 0
      = Some b'
      /\ last_status b' = "found".
Proof.
  split; [reflexivity|].
  destruct (blank_title_matches_any_owned_item "  " eq_refl) as [Hany Hcheck].
  split; [exact (Hany "Dune")|].
  apply (Hcheck (check_args false) (env_answering [dune_item] "2024-03-03")
           (dir [book "  " "not_found" None]) 0 (book "  " "not_found" None)
           (response [dune_item]) eq_refl eq_refl eq_refl).
  constructor. reflexivity.
Defined.

Lemma watch_twice_keeps_one_entry_witness :
  PyStr.lower "Dune" = PyStr.lower "DUNE"
  /\ unique_titles (stored_books (dir []) None)
  /\ exit_code (cmd_watch (watch_args "Dune") "2024-03-03" (dir [])) = 0%Z
  /\ exit_code (cmd_watch (watch_args "DUNE") "2024-03-04"
                  (data_dir (cmd_watch (watch_args "Dune") "2024-03-03" (dir []))))
     = 0%Z
  /\ length (entries_for "Dune"
               (stored_books
                  (data_dir (cmd_watch (watch_args "DUNE") "2024-03-04"
                     (data_dir (cmd_watch (watch_args "Dune") "2024-03-03" (dir [])))))
                  None)) = 1.
Proof.
  split; [reflexivity|].
  assert (unique_titles (stored_books (dir []) None)) as Huniq.
  { constructor. }
  split; [exact Huniq|].
  destruct (watch_twice_keeps_one_entry (watch_args "Dune") (watch_args "DUNE")
              "2024-03-03" "2024-03-04" (dir []) eq_refl eq_refl Huniq)
    as (Hexit1 & Hexit2 & Hone & _).
  split; [exact Hexit1|]. split; [exact Hexit2 | exact Hone].
Defined.

Lemma unwatch_unknown_title_exits_1_witness :
  Forall (fun b => PyStr.lower (title b) <> PyStr.lower "nonexistent")
    (stored_books (dir [book "Dune" "not_found" None]) None)
  /\ exit_code (cmd_unwatch (unwatch_args "nonexistent")
                  (dir [book "Dune" "not_found" None])) = 1%Z
  /\ data_dir (cmd_unwatch (unwatch_args "nonexistent")
                 (dir [book "Dune" "not_found" None]))
     = dir [book "Dune" "not_found" None]
  /\ Exists (fun b => PyStr.lower (title b) = PyStr.lower "DUNE")
       (stored_books (dir [book "Dune" "not_found" None]) None)
  /\ exit_code (cmd_unwatch (unwatch_args "DUNE")
                  (dir [book "Dune" "not_found" None])) = 0%Z.
Proof.
  assert (Forall (fun b => PyStr.lower (title b) <> PyStr.lower "nonexistent")
            (stored_books (dir [book "Dune" "not_found" None]) None)) as Hnone.
  { constructor; [vm_compute; discriminate | constructor]. }
  assert (Exists (fun b => PyStr.lower (title b) = PyStr.lower "DUNE")
            (stored_books (dir [book "Dune" "not_found" None]) None)) as Hsome.
  { constructor. reflexivity. }
  destruct (unwatch_unknown_title_exits_1 (unwatch_args "nonexistent")
              (dir [book "Dune" "not_found" None])) as [Habsent _].
  destruct (Habsent Hnone) as (Hexit & Hdir & _).
  destruct (unwatch_unknown_title_exits_1 (unwatch_args "DUNE")
              (dir [book "Dune" "not_found" None])) as [_ Hpresent].
  split; [exact Hnone|]. split; [exact Hexit|]. split; [exact Hdir|].
  split; [exact Hsome | exact (Hpresent Hsome)].
Defined.

(** C3: what the code does. In notify mode, with one entry that was
    already [found] and matches again, the run has no new find and yet
    prints the three lines of the found-status digest. *)
Theorem notify_prints_digest_without_new_finds :
  let bs := [book "Dune" "found" (Some "2024-01-01")] in
  let env := env_answering [dune_item] "2024-03-03" in
  cs_new_finds (check_pass env bs) = []
  /\ stdout (trace (cmd_check (check_args true) env (dir bs)))
     = [PyStr.nl +:+ "1 book(s) already in catalogue:";
        "  - Dune";
        "Consider removing them with 'unwatch'."].
Proof. by vm_compute. Qed.

(** C4: what the code does. With two entries of which the first one's
    search fails, the run sends both requests with no pause between
    them (zero pauses for two entries); had the first search been
    answered, it would pause once between the two requests. *)
Theorem pause_skipped_after_failed_search :
  let bs := [book "Foo" "not_found" None; book "Dune" "not_found" None] in
  let run env := trace (cmd_check (check_args true) env (dir bs)) in
  take 3 (run (env_failing_at 0 [dune_item] "2024-03-03"))
  = [Request "telaviv" "Foo"; Stderr "Error: timed out"; Request "telaviv" "Dune"]
  /\ requests (run (env_failing_at 0 [dune_item] "2024-03-03")) = 2
  /\ pauses (run (env_failing_at 0 [dune_item] "2024-03-03")) = 0
  /\ take 3 (run (env_answering [dune_item] "2024-03-03"))
     = [Request "telaviv" "Foo"; Sleep RATE_LIMIT_SECONDS; Request "telaviv" "Dune"]
  /\ pauses (run (env_answering [dune_item] "2024-03-03")) = 1.
Proof. by vm_compute. Qed.

End Runs.

(* ================================================================== *)
(** * Further properties of the match evaluator *)
(* ================================================================== *)

Section MatchFacts.

Implicit Types (a b s t l r : string) (c : ascii).

Lemma startswith_refl s : PyStr.startswith s s = true.
Proof. induction s as [|c s IH]; [done|]. simpl. by rewrite decide_True. Qed.

Lemma contains_refl s : PyStr.contains s s = true.
Proof. destruct s; simpl; [done|]. by rewrite decide_True, startswith_refl. Qed.

Lemma lower_char_idem c : PyStr.lower_char (PyStr.lower_char c) = PyStr.lower_char c.
Proof. by destruct c as [[] [] [] [] [] [] [] []]. Qed.

Lemma lower_idem s : PyStr.lower (PyStr.lower s) = PyStr.lower s.
Proof. induction s as [|c s IH]; [done|]. simpl. by rewrite lower_char_idem, IH. Qed.

Lemma lower_app s t : PyStr.lower (s +:+ t) = PyStr.lower s +:+ PyStr.lower t.
Proof. induction s as [|c s IH]; [done|]. rewrite app_cons. simpl. by rewrite IH. Qed.

Lemma lstrip_space_prefix l s :
  PyStr.all_space l = true -> PyStr.lstrip (l +:+ s) = PyStr.lstrip s.
Proof.
  induction l as [|c l IH]; [done|]. intros Hl. simpl in Hl.
  apply andb_true_iff in Hl as [Hc Hl].
  change (String c l +:+ s) with (String c (l +:+ s)). simpl. rewrite Hc. by apply IH.
Qed.

Lemma rstrip_space_suffix s r :
  PyStr.all_space r = true -> PyStr.rstrip (s +:+ r) = PyStr.rstrip s.
Proof.
  intros Hr. induction s as [|c s IH].
  - rewrite app_empty_l. by apply rstrip_all_space.
  - rewrite app_cons. simpl. by rewrite IH.
Qed.

Lemma rstrip_space_prefix l s :
  PyStr.all_space l = true ->
  PyStr.rstrip (l +:+ s)
  = match PyStr.rstrip s with EmptyString => EmptyString | u => l +:+ u end.
Proof.
  induction l as [|c l IH]; intros Hl.
  - rewrite app_empty_l. by destruct (PyStr.rstrip s).
  - simpl in Hl. apply andb_true_iff in Hl as [Hc Hl]. rewrite app_cons. simpl.
    rewrite (IH Hl). destruct (PyStr.rstrip s) as [|x u]; [by rewrite Hc|].
    destruct l; by rewrite ?app_empty_l, ?app_cons.
Qed.

Lemma strip_surrounding_space l s r :
  PyStr.all_space l = true -> PyStr.all_space r = true ->
  PyStr.strip (l +:+ s +:+ r) = PyStr.strip s.
Proof.
  intros Hl Hr. unfold PyStr.strip.
  rewrite (rstrip_space_prefix l _ Hl), (rstrip_space_suffix s r Hr).
  destruct (PyStr.rstrip s) as [|x u]; [done|]. by rewrite (lstrip_space_prefix l _ Hl).
Qed.

(** X1. The title match is reflexive and symmetric, and it ignores
    letter case: lower-casing either argument beforehand does not
    change the answer. *)
Theorem title_matches_reflexive_symmetric_caseless :
  (forall s, title_matches s s = true)
  /\ (forall s r, title_matches s r = title_matches r s)
  /\ (forall s r, title_matches (PyStr.lower s) r = title_matches s r)
  /\ (forall s r, title_matches s (PyStr.lower r) = title_matches s r).
Proof.
  unfold title_matches. split; [|split; [|split]].
  - intros s. by rewrite contains_refl.
  - intros s r. apply orb_comm.
  - intros s r. by rewrite lower_idem.
  - intros s r. by rewrite lower_idem.
Qed.

(** X2. Whitespace around the watched title does not change the
    title match. *)
Theorem title_matches_ignores_surrounding_space (l s t r : string) :
  PyStr.all_space l = true -> PyStr.all_space t = true ->
  title_matches (l +:+ s +:+ t) r = title_matches s r.
Proof.
  intros Hl Ht. unfold title_matches. rewrite !lower_app.
  rewrite strip_surrounding_space; [done|by rewrite all_space_lower..].
Qed.

Lemma title_matches_ignores_surrounding_space_witness :
  PyStr.all_space "  " = true /\ PyStr.all_space " " = true
  /\ title_matches ("  " +:+ "Dune" +:+ " ") "dune messiah" = title_matches "Dune" "dune messiah".
Proof.
  split; [reflexivity|]. split; [reflexivity|].
  exact (title_matches_ignores_surrounding_space "  " "Dune" " " "dune messiah"
           eq_refl eq_refl).
Defined.

End MatchFacts.

(* ================================================================== *)
(** * Further properties of the store *)
(* ================================================================== *)

Section StoreFacts.

Implicit Types (s t p q : string) (dd : DataDir).





End StoreFacts.

(* ================================================================== *)
(** * Commands on the data directory *)
(* ================================================================== *)

Section DispatchFacts.

Implicit Types (c : command) (cs : list command) (dd : DataDir) (b : Book)
  (bs : list Book).

Lemma cmd_search_dir args reply dd : data_dir (cmd_search args reply dd) = dd.
Proof.
  unfold cmd_search. destruct reply; simpl; [|done..].
  by destruct (default 0%Z (totalItems data) =? 0)%Z.
Qed.

Lemma cmd_watch_files args today dd :
  watchlist_files (data_dir (cmd_watch args today dd)) = watchlist_files dd
  \/ exists w, watchlist_files (data_dir (cmd_watch args today dd))
               = <[get_watchlist_path (w_profile args) := w]> (watchlist_files dd).
Proof.
  unfold cmd_watch. pose proof (load_config_watchlists dd) as Hfiles.
  pose proof (stored_books_load_config dd (w_profile args)) as Hsame.
  destruct (load_config dd) as [[config dd1] ev]. unfold stored_books in Hsame.
  simpl in *. destruct (already_watching _ _); simpl.
  - by left.
  - right. rewrite Hfiles. by eexists.
Qed.

Lemma cmd_unwatch_files args dd :
  watchlist_files (data_dir (cmd_unwatch args dd)) = watchlist_files dd
  \/ exists w, watchlist_files (data_dir (cmd_unwatch args dd))
               = <[get_watchlist_path (u_profile args) := w]> (watchlist_files dd).
Proof.
  unfold cmd_unwatch. destruct (_ <? _); simpl; [right; by eexists | by left].
Qed.

Lemma cmd_check_files args env dd :
  watchlist_files (data_dir (cmd_check args env dd)) = watchlist_files dd
  \/ exists w, watchlist_files (data_dir (cmd_check args env dd))
               = <[get_watchlist_path (c_profile args) := w]> (watchlist_files dd).
Proof.
  unfold cmd_check. destruct (books _); simpl; [by left | right; by eexists].
Qed.

Lemma dispatch_files c dd :
  watchlist_files (data_dir (dispatch c dd)) = watchlist_files dd
  \/ exists path w, command_file c = Some path
       /\ watchlist_files (data_dir (dispatch c dd)) = <[path := w]> (watchlist_files dd).
Proof.
  destruct c as [args reply|args today|args|args env]; simpl.
  - left. by rewrite cmd_search_dir.
  - destruct (cmd_watch_files args today dd) as [?|[w ?]]; [by left|].
    right. by eexists _, w.
  - destruct (cmd_unwatch_files args dd) as [?|[w ?]]; [by left|].
    right. by eexists _, w.
  - destruct (cmd_check_files args env dd) as [?|[w ?]]; [by left|].
    right. by eexists _, w.
Qed.

(** X4. A command reads and writes no watchlist file other than the
    one of its own profile: every other file of the data directory is
    afterwards what it was, and [search] leaves them all alone. *)
Theorem commands_touch_only_their_watchlist (c : command) (dd : DataDir)
    (path : string) :
  command_file c <> Some path ->
  watchlist_files (data_dir (dispatch c dd)) !! path = watchlist_files dd !! path.
Proof.
  intros Hother. destruct (dispatch_files c dd) as [->|(own & w & Hown & ->)]; [done|].
  apply lookup_insert_ne. intros ->. by rewrite Hown in Hother.
Qed.

Lemma commands_touch_only_their_watchlist_witness :
  command_file (Watch (Sample.watch_args "Dune") "2024-03-03")
  <> Some "watchlist-ann.json"
  /\ watchlist_files
       (data_dir (dispatch (Watch (Sample.watch_args "Dune") "2024-03-03") fresh_dir))
     !! "watchlist-ann.json"
     = watchlist_files fresh_dir !! "watchlist-ann.json".
Proof.
  assert (command_file (Watch (Sample.watch_args "Dune") "2024-03-03")
          <> Some "watchlist-ann.json") as Hother by discriminate.
  split; [exact Hother|].
  exact (commands_touch_only_their_watchlist
           (Watch (Sample.watch_args "Dune") "2024-03-03") fresh_dir
           "watchlist-ann.json" Hother).
Defined.

(** X5. No command changes a configuration that exists. When there is
    none, [watch] stores the default one (library [telaviv], named
    Israel Digital) and every other command leaves it missing. *)
Theorem config_created_by_watch_only (c : command) (dd : DataDir) :
  match config_json dd with
  | Some cfg => config_json (data_dir (dispatch c dd)) = Some cfg
  | None =>
      config_json (data_dir (dispatch c dd))
      = match c with
        | Watch _ _ =>
            Some {| default_library := Some "telaviv";
                    libraries := {[ "telaviv" := "Israel Digital" ]} |}
        | _ => None
        end
  end.
Proof.
  destruct c as [args reply|args today|args|args env]; simpl.
  - rewrite cmd_search_dir. by destruct (config_json dd).
  - unfold cmd_watch, load_config.
    destruct (config_json dd) as [cfg|] eqn:Hcfg; simpl;
      destruct (already_watching _ _); simpl; done.
  - unfold cmd_unwatch. destruct (_ <? _); simpl; by destruct (config_json dd).
  - unfold cmd_check. destruct (books _); simpl; by destruct (config_json dd).
Qed.

Lemma cmd_unwatch_exit args dd :
  exit_code (cmd_unwatch args dd) = 1%Z
  <-> Forall (fun b => PyStr.lower (title b) <> PyStr.lower (u_title args))
        (stored_books dd (u_profile args)).
Proof.
  unfold cmd_unwatch. fold (stored_books dd (u_profile args)).
  set (bs := stored_books dd (u_profile args)).
  set (keep := fun b : Book =>
         negb (bool_decide (PyStr.lower (title b) = PyStr.lower (u_title args)))).
  simpl. destruct (length (List.filter keep bs) <? length bs) eqn:Hlt; simpl.
  - split; [done|]. intros Hnone. apply Nat.ltb_lt in Hlt.
    rewrite filter_keeps_all in Hlt; [lia|].
    eapply Forall_impl; [exact Hnone|]. intros b Hb. unfold keep.
    by rewrite bool_decide_eq_false_2.
  - split; [|done]. intros _. apply Nat.ltb_ge in Hlt. apply Forall_forall.
    intros b Hb Heq.
    assert (length (List.filter keep bs) < length bs); [|lia].
    apply filter_drops_some, Exists_exists. exists b. split; [done|].
    unfold keep. by rewrite bool_decide_eq_true_2.
Qed.

(** X6. Every command exits with code 0 or 1, and with 1 exactly when
    it is a search whose request failed or an unwatch of a title that
    no entry has; [watch] and [check] always exit with 0. *)
Theorem exit_code_1_only_on_failure (c : command) (dd : DataDir) :
  (exit_code (dispatch c dd) = 0%Z \/ exit_code (dispatch c dd) = 1%Z)
  /\ (exit_code (dispatch c dd) = 1%Z <-> fails c dd).
Proof.
  destruct c as [args reply|args today|args|args env]; simpl.
  - unfold cmd_search. destruct reply; simpl;
      [destruct (default 0%Z (totalItems data) =? 0)%Z; simpl|..];
      (split; [auto | done]).
  - destruct (cmd_watch_cases args today dd) as (-> & _). split; [by left | done].
  - pose proof (cmd_unwatch_exit args dd) as Hexit. split; [|done].
    unfold cmd_unwatch. destruct (_ <? _); simpl; auto.
  - rewrite cmd_check_exit. split; [by left | done].
Qed.

End DispatchFacts.

(* ================================================================== *)
(** * How watch and unwatch compose *)
(* ================================================================== *)

Section WatchCompose.

Implicit Types (dd : DataDir) (b : Book) (bs : list Book).

Lemma cmd_watch_new args today dd :
  already_watching (w_title args) (stored_books dd (w_profile args)) = false ->
  exists b,
    stored_books (data_dir (cmd_watch args today dd)) (w_profile args)
    = stored_books dd (w_profile args) ++ [b]
    /\ title b = w_title args /\ author b = Some (str_or (w_author args) "")
    /\ added b = today /\ last_status b = "not_found"
    /\ last_checked b = None /\ found_date b = None
    /\ writes (trace (cmd_watch args today dd))
       = [(get_watchlist_path (w_profile args),
           {| books := stored_books dd (w_profile args) ++ [b] |})].
Proof.
  unfold cmd_watch. pose proof (stored_books_load_config dd (w_profile args)) as Hsame.
  assert (writes (load_config dd).2 = []) as Hev.
  { unfold load_config. by destruct (config_json dd). }
  destruct (load_config dd) as [[config dd1] ev]. unfold stored_books in *.
  simpl in *. rewrite Hsame. intros ->. simpl. eexists. split.
  { unfold load_watchlist. simpl. by rewrite lookup_insert_eq. }
  do 6 (split; [reflexivity|]).
  unfold writes in *. rewrite omap_app, Hev. simpl.
  by destruct (PyStr.truthy (str_or (w_author args) "")).
Qed.

Lemma cmd_watch_known args today dd :
  already_watching (w_title args) (stored_books dd (w_profile args)) = true ->
  stored_books (data_dir (cmd_watch args today dd)) (w_profile args)
  = stored_books dd (w_profile args)
  /\ writes (trace (cmd_watch args today dd)) = [].
Proof.
  unfold cmd_watch. pose proof (stored_books_load_config dd (w_profile args)) as Hsame.
  assert (writes (load_config dd).2 = []) as Hev.
  { unfold load_config. by destruct (config_json dd). }
  destruct (load_config dd) as [[config dd1] ev]. unfold stored_books in *.
  simpl in *. rewrite Hsame. intros ->. simpl. split; [done|].
  unfold writes in *. by rewrite omap_app, Hev.
Qed.

(** X7. [watch] never changes, drops or reorders the entries that are
    there. If the title is already watched (in any letter case) it
    writes no watchlist file; otherwise it writes the file once, with
    one entry added at the end that carries the given title and
    today's date, is [not_found], and has neither a check time nor a
    found date. *)
Theorem watch_appends_one_unchecked_entry
    (args : WatchArgs) (today : string) (dd : DataDir) :
  let before := stored_books dd (w_profile args) in
  let out := cmd_watch args today dd in
  let after := stored_books (data_dir out) (w_profile args) in
  if already_watching (w_title args) before
  then after = before /\ writes (trace out) = []
  else exists b,
      after = before ++ [b]
      /\ title b = w_title args /\ added b = today
      /\ last_status b = "not_found" /\ last_checked b = None /\ found_date b = None
      /\ writes (trace out)
         = [(get_watchlist_path (w_profile args), {| books := before ++ [b] |})].
Proof.
  intros before out after.
  destruct (already_watching (w_title args) before) eqn:Haw.
  - by apply cmd_watch_known.
  - destruct (cmd_watch_new args today dd Haw)
      as (b & Hafter & Ht & _ & Hadd & Hst & Hlc & Hfd & Hw).
    exists b. by repeat split.
Qed.

Lemma cmd_unwatch_absent args dd :
  Forall (fun b => PyStr.lower (title b) <> PyStr.lower (u_title args))
    (stored_books dd (u_profile args)) ->
  exit_code (cmd_unwatch args dd) = 1%Z
  /\ data_dir (cmd_unwatch args dd) = dd
  /\ writes (trace (cmd_unwatch args dd)) = [].
Proof.
  intros Hnone. unfold cmd_unwatch. fold (stored_books dd (u_profile args)).
  rewrite filter_keeps_all.
  - simpl. by rewrite Nat.ltb_irrefl.
  - eapply Forall_impl; [exact Hnone|]. intros b Hb. simpl.
    by rewrite bool_decide_eq_false_2.
Qed.

Lemma cmd_unwatch_present args dd :
  Exists (fun b => PyStr.lower (title b) = PyStr.lower (u_title args))
    (stored_books dd (u_profile args)) ->
  exit_code (cmd_unwatch args dd) = 0%Z.
Proof.
  intros Hsome. unfold cmd_unwatch. fold (stored_books dd (u_profile args)). simpl.
  assert (length (List.filter
            (fun b => negb (bool_decide (PyStr.lower (title b)
                                         = PyStr.lower (u_title args))))
            (stored_books dd (u_profile args)))
          < length (stored_books dd (u_profile args))) as Hlt.
  { apply filter_drops_some. eapply Exists_impl; [exact Hsome|].
    intros b Hb. simpl. by rewrite bool_decide_eq_true_2. }
  apply Nat.ltb_lt in Hlt. by rewrite Hlt.
Qed.

(** X8. Watching a title that is not yet on the watchlist and then
    unwatching it (in any letter case) exits with code 0 and gives
    back the watchlist as it was before the two commands. *)
Theorem unwatch_undoes_watch
    (wargs : WatchArgs) (today : string) (uargs : UnwatchArgs) (dd : DataDir) :
  w_profile wargs = u_profile uargs ->
  PyStr.lower (w_title wargs) = PyStr.lower (u_title uargs) ->
  already_watching (w_title wargs) (stored_books dd (w_profile wargs)) = false ->
  let out1 := cmd_watch wargs today dd in
  let out2 := cmd_unwatch uargs (data_dir out1) in
  exit_code out2 = 0%Z
  /\ stored_books (data_dir out2) (w_profile wargs) = stored_books dd (w_profile wargs).
Proof.
  intros Hprof Hlow Haw out1 out2.
  destruct (cmd_watch_new wargs today dd Haw) as (b & Hafter & Ht & _).
  fold out1 in Hafter. split.
  - apply cmd_unwatch_present. rewrite <- Hprof, Hafter.
    apply Exists_app. right. constructor. by rewrite Ht.
  - unfold out2. rewrite Hprof, cmd_unwatch_stored, <- Hprof, Hafter.
    rewrite List.filter_app. simpl.
    rewrite bool_decide_eq_true_2 by by rewrite Ht. simpl. rewrite app_nil_r.
    apply filter_keeps_all. apply Forall_forall. intros x Hx.
    apply negb_true_iff, bool_decide_eq_false. intros Heq.
    apply not_true_iff_false in Haw. apply Haw, already_watching_spec, Exists_exists.
    exists x. split; [done|]. by rewrite Hlow.
Qed.

Lemma unwatch_undoes_watch_witness :
  already_watching "Dune" (stored_books (Sample.dir [Sample.book "Emma" "found" None]) None)
  = false
  /\ exit_code (cmd_unwatch (Sample.unwatch_args "DUNE")
                  (data_dir (cmd_watch (Sample.watch_args "Dune") "2024-03-03"
                               (Sample.dir [Sample.book "Emma" "found" None])))) = 0%Z
  /\ stored_books
       (data_dir (cmd_unwatch (Sample.unwatch_args "DUNE")
                    (data_dir (cmd_watch (Sample.watch_args "Dune") "2024-03-03"
                                 (Sample.dir [Sample.book "Emma" "found" None])))))
       None
     = stored_books (Sample.dir [Sample.book "Emma" "found" None]) None.
Proof.
  split; [reflexivity|].
  exact (unwatch_undoes_watch (Sample.watch_args "Dune") "2024-03-03"
           (Sample.unwatch_args "DUNE")
           (Sample.dir [Sample.book "Emma" "found" None]) eq_refl eq_refl eq_refl).
Defined.

(** X9. After an [unwatch], a second [unwatch] of the same title (in
    any letter case) on the same profile exits with code 1, writes no
    watchlist file and leaves the data directory as the first one left
    it. *)
Theorem unwatch_again_finds_nothing (args1 args2 : UnwatchArgs) (dd : DataDir) :
  u_profile args1 = u_profile args2 ->
  PyStr.lower (u_title args1) = PyStr.lower (u_title args2) ->
  let out1 := cmd_unwatch args1 dd in
  let out2 := cmd_unwatch args2 (data_dir out1) in
  exit_code out2 = 1%Z /\ data_dir out2 = data_dir out1 /\ writes (trace out2) = [].
Proof.
  intros Hprof Hlow out1 out2. apply cmd_unwatch_absent.
  unfold out1. rewrite <- Hprof, cmd_unwatch_stored, <- Hlow.
  apply Forall_forall. intros b Hb%list_elem_of_In%List.filter_In.
  destruct Hb as [_ Hk]. apply negb_true_iff in Hk. by apply bool_decide_eq_false in Hk.
Qed.

Lemma unwatch_again_finds_nothing_witness :
  exit_code (cmd_unwatch (Sample.unwatch_args "DUNE")
               (data_dir (cmd_unwatch (Sample.unwatch_args "dune")
                            (Sample.dir [Sample.book "Dune" "found" None])))) = 1%Z
  /\ data_dir (cmd_unwatch (Sample.unwatch_args "DUNE")
                 (data_dir (cmd_unwatch (Sample.unwatch_args "dune")
                              (Sample.dir [Sample.book "Dune" "found" None]))))
     = data_dir (cmd_unwatch (Sample.unwatch_args "dune")
                   (Sample.dir [Sample.book "Dune" "found" None])).
Proof.
  destruct (unwatch_again_finds_nothing (Sample.unwatch_args "dune")
              (Sample.unwatch_args "DUNE")
              (Sample.dir [Sample.book "Dune" "found" None]) eq_refl eq_refl)
    as (Hexit & Hdir & _).
  split; [exact Hexit | exact Hdir].
Defined.

End WatchCompose.

(* ================================================================== *)
(** * The effects of a check run *)
(* ================================================================== *)

Section CheckEffects.

Variable env : Env.

Implicit Types (bs : list Book) (b : Book) (i idx : nat) (st : CheckState)
  (tr : list event).

Lemma request_log_app tr1 tr2 :
  request_log (tr1 ++ tr2) = request_log tr1 ++ request_log tr2.
Proof. apply omap_app. Qed.

Lemma only_polling_quiet tr : only_polling tr -> stdout tr = [] /\ writes tr = [].
Proof.
  induction tr as [|e tr IH]; [done|]. intros [He Htr]%Forall_cons.
  destruct (IH Htr) as [IH1 IH2]. unfold stdout, writes in *. simpl.
  by destruct e; simpl; rewrite ?IH1, ?IH2.
Qed.

Lemma only_prints_idle tr :
  only_prints tr -> request_log tr = [] /\ pauses tr = 0 /\ writes tr = [].
Proof.
  induction tr as [|e tr IH]; [done|]. intros [He Htr]%Forall_cons.
  destruct (IH Htr) as (IH1 & IH2 & IH3). unfold request_log, pauses, writes in *.
  simpl. by destruct e; simpl; rewrite ?IH1, ?IH2, ?IH3.
Qed.

Lemma check_book_trace total idx st b :
  cs_books st !! idx = Some b ->
  exists ev, cs_trace (check_book env total idx st) = cs_trace st ++ ev
             /\ only_polling ev
             /\ request_log ev = [(library b, book_query b)].
Proof.
  intros Hb. unfold check_book. rewrite Hb.
  destruct (remote env idx (library b) (book_query b)); simpl;
    [destruct (scan_items _ _); [case_bool_decide|]; simpl;
       destruct (idx <? total - 1) |..];
    (eexists; split; [reflexivity|]; split; [by repeat constructor | reflexivity]).
Qed.

Lemma check_loop_trace total idxs bs st :
  (forall j, j ∈ idxs -> cs_books st !! j = bs !! j) ->
  NoDup idxs ->
  exists ev, cs_trace (check_loop env total idxs st) = cs_trace st ++ ev
             /\ only_polling ev
             /\ request_log ev
                = flat_map (fun j => match bs !! j with
                                     | Some b => [(library b, book_query b)]
                                     | None => []
                                     end) idxs.
Proof.
  revert st. induction idxs as [|idx idxs IH]; intros st Hsame Hnd.
  - exists []. simpl. split; [by rewrite app_nil_r|]. split; [constructor | done].
  - apply NoDup_cons in Hnd as [Hfresh Hnd]. simpl.
    destruct (IH (check_book env total idx st)) as (ev2 & -> & Hpoll2 & Hlog2); [|done|].
    { intros j Hj. rewrite check_book_other; [apply Hsame; by right|].
      intros ->. contradiction. }
    rewrite <- (Hsame idx) by by left.
    destruct (cs_books st !! idx) as [b|] eqn:Hb.
    + destruct (check_book_trace total idx st b Hb) as (ev1 & -> & Hpoll1 & Hlog1).
      exists (ev1 ++ ev2). rewrite app_assoc. split; [done|]. split.
      * by apply Forall_app.
      * by rewrite request_log_app, Hlog1, Hlog2.
    + unfold check_book. rewrite Hb. by exists ev2.
Qed.

Lemma flat_map_lookup_seq {A B} (g : A -> B) (pre l : list A) :
  flat_map (fun j => match (pre ++ l) !! j with Some x => [g x] | None => [] end)
    (seq (length pre) (length l))
  = map g l.
Proof.
  revert pre. induction l as [|x l IH]; intros pre; [done|]. simpl.
  rewrite list_lookup_middle by done. simpl. f_equal.
  specialize (IH (pre ++ [x])). rewrite <- app_assoc, length_app in IH. simpl in IH.
  by rewrite Nat.add_1_r in IH.
Qed.

Lemma check_pass_trace bs :
  only_polling (cs_trace (check_pass env bs))
  /\ request_log (cs_trace (check_pass env bs))
     = map (fun b => (library b, book_query b)) bs.
Proof.
  unfold check_pass.
  destruct (check_loop_trace (length bs) (seq 0 (length bs)) bs
              {| cs_books := bs; cs_new_finds := []; cs_trace := [] |})
    as (ev & -> & Hpoll & Hlog); [done | apply NoDup_seq |].
  simpl. split; [done|]. rewrite Hlog.
  apply (flat_map_lookup_seq (fun b => (library b, book_query b)) [] bs).
Qed.

Lemma print_new_find_prints bs nf : only_prints (print_new_find bs nf).
Proof.
  destruct nf as [idx item]. unfold print_new_find.
  destruct (bs !! idx); by repeat constructor.
Qed.

Lemma check_report_prints notify total st : only_prints (check_report notify total st).
Proof.
  unfold check_report. apply Forall_app. split.
  - destruct notify.
    + destruct (cs_new_finds st) as [|nf nfs]; [constructor|].
      apply Forall_app. split; [by repeat constructor|].
      generalize (nf :: nfs). intros l. induction l as [|x l IH]; [constructor|].
      simpl. apply Forall_app. split; [apply print_new_find_prints | done].
    + apply Forall_app. split; [by repeat constructor|].
      destruct (cs_new_finds st); by repeat constructor.
  - destruct (List.filter _ (cs_books st)) as [|b found]; [constructor|].
    apply Forall_app. split; [by repeat constructor|]. apply Forall_app. split.
    + generalize (b :: found). intros l. induction l; by constructor.
    + by repeat constructor.
Qed.

(** The trace of a check run on a watchlist that is not empty. *)
Lemma cmd_check_trace args dd :
  stored_books dd (c_profile args) <> [] ->
  trace (cmd_check args env dd)
  = cs_trace (check_pass env (stored_books dd (c_profile args)))
    ++ [WriteWatchlist (get_watchlist_path (c_profile args))
          {| books := stored_books (data_dir (cmd_check args env dd)) (c_profile args) |}]
    ++ check_report (c_notify args) (length (stored_books dd (c_profile args)))
         (check_pass env (stored_books dd (c_profile args))).
Proof.
  intros Hne. rewrite cmd_check_stored. unfold cmd_check, stored_books in *.
  by destruct (books (load_watchlist dd (c_profile args))).
Qed.

Lemma cmd_check_empty args dd :
  stored_books dd (c_profile args) = [] ->
  data_dir (cmd_check args env dd) = dd
  /\ trace (cmd_check args env dd)
     = if c_notify args then [] else [Print "Watchlist is empty."].
Proof. unfold cmd_check, stored_books. by intros ->. Qed.

(** X10. A check run sends exactly one request per entry, in
    watchlist order, to the entry's library and with the entry's title
    and author, joined by a space and trimmed, as the query; on an
    empty watchlist it sends none. *)
Theorem check_queries_each_entry_once_in_order (args : CheckArgs) (dd : DataDir) :
  request_log (trace (cmd_check args env dd))
  = map (fun b => (library b,
                   PyStr.strip (title b +:+ " " +:+ default "" (author b))))
      (stored_books dd (c_profile args)).
Proof.
  destruct (stored_books dd (c_profile args)) as [|b0 bs] eqn:Hbs.
  - destruct (cmd_check_empty args dd Hbs) as [_ ->]. by destruct (c_notify args).
  - rewrite cmd_check_trace by by rewrite Hbs. rewrite Hbs, !request_log_app.
    destruct (check_pass_trace (b0 :: bs)) as [_ ->].
    destruct (only_prints_idle _ (check_report_prints (c_notify args)
                (length (b0 :: bs)) (check_pass env (b0 :: bs)))) as (-> & _).
    simpl. by rewrite app_nil_r.
Qed.

(** X11. A check run on an empty watchlist changes nothing, sends
    nothing and writes nothing. On any other watchlist it writes the
    watchlist file exactly once, after all requests, error messages
    and pauses and before everything it prints; what it writes is what
    is stored afterwards. *)
Theorem check_saves_once_after_polling (args : CheckArgs) (dd : DataDir) :
  let out := cmd_check args env dd in
  match stored_books dd (c_profile args) with
  | [] => data_dir out = dd /\ request_log (trace out) = [] /\ writes (trace out) = []
  | _ :: _ =>
      exists polling prints,
        trace out
        = polling
          ++ [WriteWatchlist (get_watchlist_path (c_profile args))
                {| books := stored_books (data_dir out) (c_profile args) |}]
          ++ prints
        /\ only_polling polling /\ only_prints prints
        /\ writes (trace out)
           = [(get_watchlist_path (c_profile args),
               {| books := stored_books (data_dir out) (c_profile args) |})]
  end.
Proof.
  intros out. destruct (stored_books dd (c_profile args)) as [|b0 bs] eqn:Hbs.
  - destruct (cmd_check_empty args dd Hbs) as [Hdir Htr]. unfold out.
    rewrite Hdir, Htr. by destruct (c_notify args).
  - assert (stored_books dd (c_profile args) <> []) as Hne by by rewrite Hbs.
    pose proof (cmd_check_trace args dd Hne) as Htr. fold out in Htr.
    destruct (check_pass_trace (stored_books dd (c_profile args))) as [Hpoll _].
    pose proof (check_report_prints (c_notify args)
                  (length (stored_books dd (c_profile args)))
                  (check_pass env (stored_books dd (c_profile args)))) as Hprints.
    eexists _, _. split; [exact Htr|]. split; [done|]. split; [done|].
    rewrite Htr. unfold writes. rewrite !omap_app. fold (writes (cs_trace
      (check_pass env (stored_books dd (c_profile args))))).
    destruct (only_polling_quiet _ Hpoll) as [_ ->].
    destruct (only_prints_idle _ Hprints) as (_ & _ & Hw). unfold writes in Hw.
    by rewrite Hw.
Qed.

Lemma filter_below_last (p : nat -> bool) (n : nat) :
  List.filter (fun j => p j && (j <? n - 1)) (seq 0 n) = List.filter p (seq 0 (n - 1)).
Proof.
  destruct n as [|m]; [done|]. replace (S m - 1) with m by lia.
  rewrite seq_S, List.filter_app. simpl.
  rewrite Nat.ltb_irrefl, andb_false_r, app_nil_r.
  apply List.filter_ext_in. intros j Hj%in_seq.
  assert ((j <? m) = true) as -> by (apply Nat.ltb_lt; lia). by rewrite andb_true_r.
Qed.

Lemma filter_length_seq (p : nat -> bool) (n : nat) :
  length (List.filter p (seq 0 n)) <= n.
Proof. etrans; [apply filter_length_le'|]. by rewrite length_seq. Qed.

(** X12. The pauses of a check run are the answered searches among
    all entries but the last: one pause after each of them, none after
    a failed search and none after the last entry. So a run over N
    entries pauses at most N-1 times, and exactly N-1 times (for N at
    least 1) when every search but the last is answered. *)
Theorem check_pauses_after_answered_searches (args : CheckArgs) (dd : DataDir) :
  let bs := stored_books dd (c_profile args) in
  let tr := trace (cmd_check args env dd) in
  pauses tr = length (List.filter (answered env bs) (seq 0 (length bs - 1)))
  /\ pauses tr <= length bs - 1
  /\ ((forall j, j < length bs - 1 -> answered env bs j = true) ->
      pauses tr = length bs - 1).
Proof.
  intros bs tr.
  assert (pauses tr = length (List.filter (answered env bs) (seq 0 (length bs - 1))))
    as Hp.
  { unfold tr. destruct bs as [|b0 bs'] eqn:Hbs.
    - destruct (cmd_check_empty args dd Hbs) as [_ ->]. by destruct (c_notify args).
    - rewrite cmd_check_trace by (fold bs; by rewrite Hbs). fold bs. rewrite Hbs.
      rewrite !pauses_app.
      destruct (only_prints_idle _ (check_report_prints (c_notify args)
                  (length (b0 :: bs')) (check_pass env (b0 :: bs')))) as (_ & -> & _).
      destruct (check_pass_events env (b0 :: bs')) as [-> _].
      rewrite filter_below_last. unfold pauses. simpl. lia. }
  split; [done|]. split.
  - rewrite Hp. apply filter_length_seq.
  - intros Hall. rewrite Hp, forallb_filter_id, length_seq; [done|].
    apply forallb_forall. intros j Hj%in_seq. apply Hall. lia.
Qed.

End CheckEffects.

Lemma check_pauses_after_answered_searches_witness :
  (forall j, j < length (stored_books
                           (Sample.dir [Sample.book "Foo" "not_found" None;
                                        Sample.book "Dune" "not_found" None]) None) - 1 ->
     answered (Sample.env_failing_at 1 [Sample.dune_item] "2024-03-03")
       (stored_books (Sample.dir [Sample.book "Foo" "not_found" None;
                                  Sample.book "Dune" "not_found" None]) None) j = true)
  /\ pauses (trace (cmd_check (Sample.check_args true)
                      (Sample.env_failing_at 1 [Sample.dune_item] "2024-03-03")
                      (Sample.dir [Sample.book "Foo" "not_found" None;
                                   Sample.book "Dune" "not_found" None]))) = 1.
Proof.
  assert (forall j,
    j < length (stored_books
                  (Sample.dir [Sample.book "Foo" "not_found" None;
                               Sample.book "Dune" "not_found" None]) None) - 1 ->
    answered (Sample.env_failing_at 1 [Sample.dune_item] "2024-03-03")
      (stored_books (Sample.dir [Sample.book "Foo" "not_found" None;
                                 Sample.book "Dune" "not_found" None]) None) j = true)
    as Hall.
  { intros j Hj.
    assert (length (stored_books
                      (Sample.dir [Sample.book "Foo" "not_found" None;
                                   Sample.book "Dune" "not_found" None]) None) = 2)
      as Hlen by reflexivity.
    rewrite Hlen in Hj. destruct j; [reflexivity | lia]. }
  split; [exact Hall|].
  exact (proj2 (proj2 (check_pauses_after_answered_searches
                         (Sample.env_failing_at 1 [Sample.dune_item] "2024-03-03")
                         (Sample.check_args true)
                         (Sample.dir [Sample.book "Foo" "not_found" None;
                                      Sample.book "Dune" "not_found" None]))) Hall).
Defined.


(* ================================================================== *)
(** * New finds and what is stored *)
(* ================================================================== *)

Section NewFinds.

Implicit Types (env : Env) (bs : list Book) (b : Book) (i : nat) (item : Item).

Lemma new_find_in_range env bs i item :
  (i, item) ∈ cs_new_finds (check_pass env bs) -> is_Some (bs !! i).
Proof.
  rewrite check_pass_new_finds, list_elem_of_In, in_flat_map.
  intros (j & _ & Hj). unfold new_find_entries in Hj.
  destruct (bs !! j) as [bj|] eqn:Hbj; [|done].
  destruct (new_find_of env j bj); [|done].
  destruct Hj as [[= -> _]|[]]. by exists bj.
Qed.

Lemma new_find_stored env bs i b item :
  bs !! i = Some b ->
  new_find_of env i b = Some item ->
  exists b', cs_books (check_pass env bs) !! i = Some b'
    /\ last_status b = "not_found" /\ last_status b' = "found"
    /\ found_date b' = Some (now_date env i)
    /\ last_checked b' = Some (now_stamp env i)
    /\ genuine_match (title b) item = true.
Proof.
  intros Hb Hnf. destruct (check_pass_at env bs i b Hb) as (b' & Hb' & Hout).
  exists b'. split; [done|]. unfold new_find_of in Hnf. unfold entry_outcome in Hout.
  destruct (response_of env i b) as [data|]; [|done].
  case_bool_decide as Hprev; [|done]. rewrite Hnf in Hout.
  destruct Hout as (_ & _ & _ & _ & Hchecked & Hst & Hdate).
  apply scan_items_first in Hnf as (pre & post & _ & Hg & _). done.
Qed.

(** X13. Every element of [new_finds] points at an entry that was
    [not_found] before the run and is [found] after it, with the date
    and the time of this run as [found_date] and [last_checked]; the
    item paired with it title-matches the entry and is owned. *)
Theorem new_find_is_stored_as_found
    (env : Env) (bs : list Book) (i : nat) (item : Item) :
  (i, item) ∈ cs_new_finds (check_pass env bs) ->
  exists b b',
    bs !! i = Some b /\ cs_books (check_pass env bs) !! i = Some b'
    /\ last_status b = "not_found" /\ last_status b' = "found"
    /\ found_date b' = Some (now_date env i)
    /\ last_checked b' = Some (now_stamp env i)
    /\ title_matches (title b) (default "" (item_title item)) = true
    /\ default false (isOwned item) = true.
Proof.
  intros Hin. destruct (new_find_in_range env bs i item Hin) as [b Hb].
  apply (check_pass_new_find_iff env bs i b item Hb) in Hin.
  destruct (new_find_stored env bs i b item Hb Hin)
    as (b' & Hb' & Hprev & Hst & Hdate & Hchecked & Hg).
  exists b, b'. apply andb_true_iff in Hg as [Hmatch Howned]. by repeat split.
Qed.

(** X14. An entry that one check run reports as a new find is not a
    new find of the next check run, whatever the catalogue answers
    then. *)
Theorem no_new_find_twice_in_a_row
    (env1 env2 : Env) (bs : list Book) (i : nat) (item : Item) :
  (i, item) ∈ cs_new_finds (check_pass env1 bs) ->
  forall item2,
    (i, item2) ∉ cs_new_finds (check_pass env2 (cs_books (check_pass env1 bs))).
Proof.
  intros Hin item2 Hin2. destruct (new_find_in_range env1 bs i item Hin) as [b Hb].
  apply (check_pass_new_find_iff env1 bs i b item Hb) in Hin.
  destruct (new_find_stored env1 bs i b item Hb Hin) as (b' & Hb' & _ & Hst & _).
  apply (check_pass_new_find_iff env2 _ i b' item2 Hb') in Hin2.
  apply new_find_of_spec in Hin2 as [Hprev _]. congruence.
Qed.

(** X15. When the answered search of an entry lists no owned item
    (also when it lists no item at all), the entry is stored as
    [not_found], whatever its status was, keeps its [found_date], and
    is no new find. *)
Theorem unowned_results_mark_not_found
    (env : Env) (bs : list Book) (i : nat) (b : Book) (data : Response) :
  bs !! i = Some b ->
  response_of env i b = Some data ->
  Forall (fun item => default false (isOwned item) = false) (default [] (items data)) ->
  (exists b', cs_books (check_pass env bs) !! i = Some b'
     /\ last_status b' = "not_found" /\ found_date b' = found_date b
     /\ last_checked b' = Some (now_stamp env i))
  /\ forall item, (i, item) ∉ cs_new_finds (check_pass env bs).
Proof.
  intros Hb Hdata Hunowned.
  assert (scan_items (title b) (default [] (items data)) = None) as Hscan.
  { apply scan_items_none. eapply Forall_impl; [exact Hunowned|].
    intros x Hx. unfold genuine_match. by rewrite Hx, andb_false_r. }
  split.
  - destruct (check_pass_at env bs i b Hb) as (b' & Hb' & Hout).
    exists b'. split; [done|]. unfold entry_outcome in Hout.
    rewrite Hdata, Hscan in Hout. by destruct Hout as (_ & _ & _ & _ & ? & ? & ?).
  - intros item Hin. apply (check_pass_new_find_iff env bs i b item Hb) in Hin.
    unfold new_find_of in Hin. rewrite Hdata, Hscan in Hin. by case_bool_decide.
Qed.

Lemma no_found_filter bs :
  List.filter (fun b => bool_decide (last_status b = "found")) bs = []
  <-> Forall (fun b => last_status b <> "found") bs.
Proof.
  induction bs as [|b bs IH]; [done|]. simpl. case_bool_decide as Hb.
  - split; [done|]. by intros [? _]%Forall_cons.
  - rewrite IH. split; [by constructor | by intros [_ ?]%Forall_cons].
Qed.

Lemma stdout_app tr1 tr2 : stdout (tr1 ++ tr2) = stdout tr1 ++ stdout tr2.
Proof. apply omap_app. Qed.

(** X16. In notify mode a check run prints nothing exactly when no
    entry of the watchlist is [found] after the run; as soon as one
    entry is [found] (newly or from an earlier run), it prints. *)
Theorem notify_silent_iff_nothing_found (args : CheckArgs) (env : Env) (dd : DataDir) :
  c_notify args = true ->
  (stdout (trace (cmd_check args env dd)) = []
   <-> Forall (fun b => last_status b <> "found")
         (stored_books (data_dir (cmd_check args env dd)) (c_profile args))).
Proof.
  intros Hnotify.
  destruct (stored_books dd (c_profile args)) as [|b0 bs0] eqn:Hbs.
  - destruct (cmd_check_empty env args dd Hbs) as [-> ->]. rewrite Hnotify, Hbs.
    split; [by constructor | done].
  - rewrite cmd_check_trace by by rewrite Hbs. rewrite cmd_check_stored, Hbs, Hnotify.
    set (bs := b0 :: bs0). rewrite !stdout_app.
    destruct (only_polling_quiet _ (proj1 (check_pass_trace env bs))) as [-> _].
    set (st := check_pass env bs). unfold check_report. rewrite stdout_app. simpl.
    rewrite <- no_found_filter.
    destruct (List.filter (fun b => bool_decide (last_status b = "found")) (cs_books st))
      as [|f fs] eqn:Hfound.
    + split; [done|]. intros _. simpl. rewrite app_nil_r.
      destruct (cs_new_finds st) as [|[i item] nfs] eqn:Hnf; [done|]. exfalso.
      assert ((i, item) ∈ cs_new_finds st) as Hin by (rewrite Hnf; by left).
      destruct (new_find_in_range env bs i item Hin) as [b Hb].
      apply (check_pass_new_find_iff env bs i b item Hb) in Hin.
      destruct (new_find_stored env bs i b item Hb Hin) as (b' & Hb' & _ & Hst & _).
      apply no_found_filter in Hfound. rewrite Forall_forall in Hfound.
      apply (Hfound b'); [|done]. apply list_elem_of_lookup. by exists i.
    + split; [|done]. intros Hsilent. apply app_eq_nil in Hsilent as [_ Hdigest].
      discriminate Hdigest.
Qed.

Lemma notify_silent_iff_nothing_found_witness :
  c_notify (Sample.check_args true) = true
  /\ stdout (trace (cmd_check (Sample.check_args true)
                      (Sample.env_answering [] "2024-03-03")
                      (Sample.dir [Sample.book "Dune" "found" (Some "2024-01-01")])))
     = [].
Proof.
  split; [reflexivity|].
  apply (notify_silent_iff_nothing_found (Sample.check_args true)
           (Sample.env_answering [] "2024-03-03")
           (Sample.dir [Sample.book "Dune" "found" (Some "2024-01-01")]) eq_refl).
  vm_compute. constructor; [discriminate | constructor].
Defined.

Lemma new_find_is_stored_as_found_witness :
  (0, Sample.dune_item)
    ∈ cs_new_finds (check_pass (Sample.env_answering [Sample.dune_item] "2024-03-03")
                      [Sample.book "Dune" "not_found" None])
  /\ exists b',
      cs_books (check_pass (Sample.env_answering [Sample.dune_item] "2024-03-03")
                  [Sample.book "Dune" "not_found" None]) !! 0 = Some b'
      /\ last_status b' = "found" /\ found_date b' = Some "2024-03-03".
Proof.
  assert ((0, Sample.dune_item)
            ∈ cs_new_finds
                (check_pass (Sample.env_answering [Sample.dune_item] "2024-03-03")
                   [Sample.book "Dune" "not_found" None])) as Hin.
  { vm_compute. left. }
  split; [exact Hin|].
  destruct (new_find_is_stored_as_found _ _ _ _ Hin)
    as (b & b' & _ & Hb' & _ & Hst & Hdate & _).
  exists b'. split; [exact Hb'|]. split; [exact Hst | exact Hdate].
Defined.

Lemma no_new_find_twice_in_a_row_witness :
  (0, Sample.dune_item)
    ∈ cs_new_finds (check_pass (Sample.env_answering [Sample.dune_item] "2024-03-03")
                      [Sample.book "Dune" "not_found" None])
  /\ (0, Sample.dune_item)
      ∉ cs_new_finds
          (check_pass (Sample.env_answering [Sample.dune_item] "2024-03-04")
             (cs_books (check_pass (Sample.env_answering [Sample.dune_item] "2024-03-03")
                          [Sample.book "Dune" "not_found" None]))).
Proof.
  assert ((0, Sample.dune_item)
            ∈ cs_new_finds
                (check_pass (Sample.env_answering [Sample.dune_item] "2024-03-03")
                   [Sample.book "Dune" "not_found" None])) as Hin.
  { vm_compute. left. }
  split; [exact Hin|].
  exact (no_new_find_twice_in_a_row
           (Sample.env_answering [Sample.dune_item] "2024-03-03")
           (Sample.env_answering [Sample.dune_item] "2024-03-04")
           [Sample.book "Dune" "not_found" None] 0 Sample.dune_item Hin
           Sample.dune_item).
Defined.

Lemma unowned_results_mark_not_found_witness :
  [Sample.book "Dune" "found" (Some "2024-01-01")] !! 0
  = Some (Sample.book "Dune" "found" (Some "2024-01-01"))
  /\ exists b',
      cs_books (check_pass (Sample.env_answering [Sample.unowned_item] "2024-03-03")
                  [Sample.book "Dune" "found" (Some "2024-01-01")]) !! 0 = Some b'
      /\ last_status b' = "not_found" /\ found_date b' = Some "2024-01-01".
Proof.
  split; [reflexivity|].
  destruct (unowned_results_mark_not_found
              (Sample.env_answering [Sample.unowned_item] "2024-03-03")
              [Sample.book "Dune" "found" (Some "2024-01-01")] 0
              (Sample.book "Dune" "found" (Some "2024-01-01"))
              (Sample.response [Sample.unowned_item]) eq_refl eq_refl)
    as [(b' & Hb' & Hst & Hdate & _) _].
  { constructor; [reflexivity | constructor]. }
  exists b'. split; [exact Hb'|]. split; [exact Hst | exact Hdate].
Defined.

End NewFinds.

(* ================================================================== *)
(** * What every stored watchlist satisfies *)
(* ================================================================== *)

Section Invariant.

Implicit Types (c : command) (cs : list command) (dd : DataDir) (b : Book)
  (bs : list Book).

Lemma stored_books_file dd profile w :
  watchlist_files dd !! get_watchlist_path profile = Some w ->
  stored_books dd profile = books w.
Proof. unfold stored_books, load_watchlist. by intros ->. Qed.

Lemma well_kept_stored dd profile :
  well_kept dd ->
  Forall consistent (stored_books dd profile) /\ unique_titles (stored_books dd profile).
Proof.
  intros Hkept. unfold stored_books, load_watchlist.
  destruct (watchlist_files dd !! get_watchlist_path profile) as [w|] eqn:Hw.
  - by apply (Hkept _ _ Hw).
  - split; [constructor | apply NoDup_nil_2].
Qed.

Lemma entry_outcome_consistent env i b b' :
  entry_outcome env i b b' -> consistent b -> consistent b'.
Proof.
  unfold entry_outcome, consistent. intros Hout [Hstatus Hdate].
  destruct (response_of env i b) as [data|]; [|by subst].
  destruct Hout as (_ & _ & _ & _ & _ & Hrest).
  destruct (scan_items _ _); destruct Hrest as [-> ->].
  - split; [by left|]. intros _. case_bool_decide as Hprev; [done|].
    apply Hdate. by destruct Hstatus.
  - split; [by right | done].
Qed.

Lemma cmd_check_consistent args env dd :
  Forall consistent (stored_books dd (c_profile args)) ->
  Forall consistent (stored_books (data_dir (cmd_check args env dd)) (c_profile args)).
Proof.
  intros Hall. apply Forall_lookup. intros i b' Hb'.
  destruct (stored_books dd (c_profile args) !! i) as [b|] eqn:Hb.
  - destruct (cmd_check_at env args dd i b Hb) as (b'' & Hb'' & Hout).
    rewrite Hb' in Hb''. injection Hb'' as <-.
    apply (entry_outcome_consistent env i b b' Hout).
    by apply (Forall_lookup_1 _ _ _ _ Hall Hb).
  - apply lookup_lt_Some in Hb'. apply lookup_ge_None in Hb.
    rewrite cmd_check_stored, check_pass_length in Hb'. lia.
Qed.

Lemma cmd_watch_consistent args today dd :
  Forall consistent (stored_books dd (w_profile args)) ->
  Forall consistent (stored_books (data_dir (cmd_watch args today dd)) (w_profile args)).
Proof.
  intros Hall.
  destruct (already_watching (w_title args) (stored_books dd (w_profile args))) eqn:Haw.
  - by destruct (cmd_watch_known args today dd Haw) as [-> _].
  - destruct (cmd_watch_new args today dd Haw) as (b & -> & _ & _ & _ & Hst & _).
    apply Forall_app. split; [done|]. constructor; [|constructor].
    split; [by right|]. rewrite Hst. discriminate.
Qed.

Lemma cmd_unwatch_consistent args dd :
  Forall consistent (stored_books dd (u_profile args)) ->
  Forall consistent (stored_books (data_dir (cmd_unwatch args dd)) (u_profile args)).
Proof.
  intros Hall. rewrite cmd_unwatch_stored. rewrite Forall_forall in *.
  intros b Hb%list_elem_of_In%List.filter_In. apply Hall, list_elem_of_In, Hb.
Qed.

Lemma dispatch_well_kept c dd : well_kept dd -> well_kept (data_dir (dispatch c dd)).
Proof.
  intros Hkept path w Hw.
  destruct (decide (command_file c = Some path)) as [Hown|Hother].
  - destruct c as [args reply|args today|args|args env]; simpl in *; [done|..];
      injection Hown as <-; rewrite <- (stored_books_file _ _ _ Hw).
    + destruct (well_kept_stored dd (w_profile args) Hkept).
      split; [by apply cmd_watch_consistent | by apply cmd_watch_unique].
    + destruct (well_kept_stored dd (u_profile args) Hkept).
      split; [by apply cmd_unwatch_consistent | by apply cmd_unwatch_unique].
    + destruct (well_kept_stored dd (c_profile args) Hkept).
      split; [by apply cmd_check_consistent | by apply cmd_check_unique].
  - destruct (dispatch_files c dd) as [Hsame|(own & w' & Hown & Hins)].
    + rewrite Hsame in Hw. by apply (Hkept _ _ Hw).
    + rewrite Hins, lookup_insert_ne in Hw; [by apply (Hkept _ _ Hw)|].
      intros ->. by rewrite Hown in Hother.
Qed.

Lemma run_all_well_kept cs dd : well_kept dd -> well_kept (run_all cs dd).
Proof.
  revert dd. induction cs as [|c cs IH]; intros dd Hkept; [done|].
  simpl. by apply IH, dispatch_well_kept.
Qed.

(** X17. Starting from a data directory before first use, after any
    sequence of search, watch, unwatch and check invocations (on any
    profiles, with any catalogue answers), every stored watchlist has
    no two entries with the same case-folded title, every entry is
    either [found] or [not_found], and every [found] entry carries a
    found date. *)
Theorem every_reachable_watchlist_is_well_kept (cs : list command) :
  forall path w, watchlist_files (run_all cs fresh_dir) !! path = Some w ->
    unique_titles (books w)
    /\ Forall (fun b =>
                 (last_status b = "found" \/ last_status b = "not_found")
                 /\ (last_status b = "found" -> is_Some (found_date b)))
         (books w).
Proof.
  intros path w Hw.
  assert (well_kept fresh_dir) as Hfresh by (intros p' w' Hw'; done).
  destruct (run_all_well_kept cs fresh_dir Hfresh path w Hw) as [Hcons Huniq].
  by split.
Qed.

Lemma every_reachable_watchlist_is_well_kept_witness :
  watchlist_files
    (run_all [Watch (Sample.watch_args "Dune") "2024-03-03";
              Check (Sample.check_args true)
                (Sample.env_answering [Sample.dune_item] "2024-03-04")]
       fresh_dir) !! "watchlist.json"
  = Some {| books := [{| title := "Dune"; author := Some ""; library := "telaviv";
                         added := "2024-03-03"; last_status := "found";
                         last_checked := Some "2024-03-04T10:00:00";
                         found_date := Some "2024-03-04" |}] |}
  /\ unique_titles [{| title := "Dune"; author := Some ""; library := "telaviv";
                       added := "2024-03-03"; last_status := "found";
                       last_checked := Some "2024-03-04T10:00:00";
                       found_date := Some "2024-03-04" |}].
Proof.
  assert (watchlist_files
            (run_all [Watch (Sample.watch_args "Dune") "2024-03-03";
                      Check (Sample.check_args true)
                        (Sample.env_answering [Sample.dune_item] "2024-03-04")]
               fresh_dir) !! "watchlist.json"
          = Some {| books := [{| title := "Dune"; author := Some ""; library := "telaviv";
                                 added := "2024-03-03"; last_status := "found";
                                 last_checked := Some "2024-03-04T10:00:00";
                                 found_date := Some "2024-03-04" |}] |}) as Hfile.
  { vm_compute. reflexivity. }
  split; [exact Hfile|].
  exact (proj1 (every_reachable_watchlist_is_well_kept _ _ _ Hfile)).
Defined.

End Invariant.

(* ================================================================== *)
(** * The search command *)
(* ================================================================== *)

Section SearchFacts.

Implicit Types (its : list Item) (idx : nat).

Lemma print_search_items_stdout idx its :
  length (stdout (print_search_items idx its)) = 3 * length its
  /\ only_prints (print_search_items idx its).
Proof.
  revert idx. induction its as [|item its IH]; intros idx.
  - split; [done | constructor].
  - destruct (IH (S idx)) as [Hlen Hprints]. simpl. split.
    + unfold stdout in *. simpl. rewrite Hlen. lia.
    + by repeat constructor.
Qed.

(** X18. [search] sends one request for the given library and query
    and never touches the data directory. When the request fails it
    prints only its heading and exits with 1. When it is answered it
    exits with 0, whatever the number of results: with a total of 0
    (or none given) it prints the heading and [No results found.],
    even if items are listed; otherwise it prints the heading, three
    lines for each listed item and a closing line with the total. *)
Theorem search_reports_and_leaves_data_alone
    (args : SearchArgs) (reply : Reply) (dd : DataDir) :
  let out := cmd_search args reply dd in
  data_dir out = dd
  /\ writes (trace out) = []
  /\ request_log (trace out) = [(s_library_code args, s_query args)]
  /\ match reply with
     | Body data =>
         exit_code out = 0%Z
         /\ if (default 0%Z (totalItems data) =? 0)%Z
            then exists heading, stdout (trace out) = [heading; "No results found."]
            else length (stdout (trace out)) = 2 + 3 * length (default [] (items data))
                 /\ last (stdout (trace out))
                    = Some (pretty (default 0%Z (totalItems data)) +:+ " result(s) total")
     | _ => exit_code out = 1%Z /\ length (stdout (trace out)) = 1
     end.
Proof.
  intros out. split; [apply cmd_search_dir|]. unfold out, cmd_search.
  destruct reply as [data|code reason|reason|msg]; simpl; [|done..].
  destruct (default 0%Z (totalItems data) =? 0)%Z; simpl.
  - split; [done|]. split; [done|]. split; [done|]. by eexists.
  - destruct (print_search_items_stdout 1 (default [] (items data))) as [Hlen Hprints].
    destruct (only_prints_idle _ Hprints) as (Hlog & _ & Hw).
    unfold writes, request_log, stdout in *. rewrite !omap_app, ?Hw, ?Hlog. simpl.
    split; [done|]. split; [done|]. split; [done|]. split.
    + rewrite length_app, Hlen. simpl. lia.
    + by rewrite app_comm_cons, last_snoc.
Qed.

End SearchFacts.

(* ================================================================== *)
(** * The request URL *)
(* ================================================================== *)

Section UrlFacts.

Implicit Types (s t : string) (c d : ascii) (n m : nat).

Lemma hex_digit_code n :
  n < 16 -> nat_of_ascii (hex_digit n) = if n <? 10 then 48 + n else 55 + n.
Proof.
  intros Hn. unfold hex_digit. destruct (n <? 10); apply nat_ascii_embedding; lia.
Qed.

Lemma hex_digit_inj n m : n < 16 -> m < 16 -> hex_digit n = hex_digit m -> n = m.
Proof.
  intros Hn Hm Heq. apply (f_equal nat_of_ascii) in Heq.
  rewrite !hex_digit_code in Heq by done.
  destruct (n <? 10) eqn:Hn10, (m <? 10) eqn:Hm10;
    rewrite ?Nat.ltb_lt, ?Nat.ltb_ge in *; lia.
Qed.

Lemma hex_digit_unreserved n : n < 16 -> unreserved (hex_digit n) = true.
Proof.
  intros Hn. do 16 (destruct n as [|n]; [reflexivity|]). lia.
Qed.

Lemma escape_inj c d :
  hex_digit (nat_of_ascii c / 16) = hex_digit (nat_of_ascii d / 16) ->
  hex_digit (nat_of_ascii c mod 16) = hex_digit (nat_of_ascii d mod 16) ->
  c = d.
Proof.
  intros Hhi Hlo.
  pose proof (nat_ascii_bounded c) as Hc. pose proof (nat_ascii_bounded d) as Hd.
  apply hex_digit_inj in Hhi; [|apply Nat.Div0.div_lt_upper_bound; lia..].
  apply hex_digit_inj in Hlo; [|apply Nat.mod_upper_bound; lia..].
  rewrite <- (ascii_nat_embedding c), <- (ascii_nat_embedding d). f_equal.
  rewrite (Nat.div_mod_eq (nat_of_ascii c) 16), (Nat.div_mod_eq (nat_of_ascii d) 16).
  by rewrite Hhi, Hlo.
Qed.

Lemma quote_inj s t : quote s = quote t -> s = t.
Proof.
  revert t. induction s as [|c s IH]; intros [|d t]; simpl.
  - done.
  - by destruct (unreserved d).
  - by destruct (unreserved c).
  - destruct (unreserved c) eqn:Hc, (unreserved d) eqn:Hd; intros Heq.
    + injection Heq as -> Heq. f_equal. by apply IH.
    + injection Heq as -> _. discriminate Hc.
    + injection Heq as <- _. discriminate Hd.
    + injection Heq as Hhi Hlo Heq. f_equal; [by apply escape_inj | by apply IH].
Qed.

Lemma url_safe_unreserved c : unreserved c = true -> url_safe c = true.
Proof. intros Hc. unfold url_safe. by rewrite Hc. Qed.

Lemma quote_safe s : all_chars url_safe (quote s) = true.
Proof.
  induction s as [|c s IH]; [done|]. cbn [quote].
  destruct (unreserved c) eqn:Hc; cbn [all_chars].
  - by rewrite (url_safe_unreserved c Hc).
  - pose proof (nat_ascii_bounded c) as Hb.
    assert (url_safe "%" = true) as -> by reflexivity.
    rewrite IH, !url_safe_unreserved; [done|apply hex_digit_unreserved..].
    + apply Nat.mod_upper_bound. lia.
    + apply Nat.Div0.div_lt_upper_bound. lia.
Qed.

Lemma quote_unreserved s : all_chars unreserved s = true -> quote s = s.
Proof.
  induction s as [|c s IH]; [done|]. simpl. intros [Hc Hs]%andb_true_iff.
  rewrite Hc. f_equal. by apply IH.
Qed.

(** X19. The encoded query of the request URL consists of letters,
    digits, [_.-~] and [%] only (so no space, slash, question mark,
    ampersand or hash of the query reaches the URL as such), and a
    query made of letters, digits and [_.-~] only is sent as it is. *)
Theorem encoded_query_is_url_safe (query : string) :
  all_chars url_safe (quote query) = true
  /\ (all_chars unreserved query = true -> quote query = query).
Proof. split; [apply quote_safe | apply quote_unreserved]. Qed.

Lemma encoded_query_is_url_safe_witness :
  all_chars unreserved "Dune" = true /\ quote "Dune" = "Dune".
Proof.
  split; [reflexivity|].
  exact (proj2 (encoded_query_is_url_safe "Dune") eq_refl).
Defined.

(** X20. For one library, two different queries are requested at two
    different URLs. *)
Theorem different_queries_different_urls (library_code query1 query2 : string) :
  request_url library_code query1 = request_url library_code query2 ->
  query1 = query2.
Proof.
  unfold request_url. intros Heq.
  apply (inj (String.app API_BASE)) in Heq.
  apply (inj (String.app "/")) in Heq.
  apply (inj (String.app library_code)) in Heq.
  apply (inj (String.app "/media?query=")) in Heq.
  by apply quote_inj.
Qed.

Lemma different_queries_different_urls_witness :
  request_url "telaviv" "Dune Messiah"
  = "https://thunder.api.overdrive.com/v2/libraries/telaviv/media?query=Dune%20Messiah"
  /\ "Dune Messiah" = "Dune Messiah".
Proof.
  split; [reflexivity|].
  exact (different_queries_different_urls "telaviv" "Dune Messiah" "Dune Messiah"
           eq_refl).
Defined.

End UrlFacts.

(* ================================================================== *)
(** * Checking again *)
(* ================================================================== *)

Section Recheck.

Implicit Types (env : Env) (bs : list Book) (b : Book) (i : nat).

Lemma entry_outcome_query env i b b' :
  entry_outcome env i b b' ->
  title b' = title b /\ library b' = library b /\ book_query b' = book_query b.
Proof.
  unfold entry_outcome, book_query.
  destruct (response_of env i b); [|by intros ->].
  intros (-> & -> & -> & _). done.
Qed.

Lemma recheck_entry env1 env2 i b b1 b2 :
  (forall idx l q, remote env2 idx l q = remote env1 idx l q) ->
  entry_outcome env1 i b b1 ->
  entry_outcome env2 i b1 b2 ->
  new_find_of env2 i b1 = None
  /\ title b2 = title b1 /\ author b2 = author b1 /\ library b2 = library b1
  /\ added b2 = added b1 /\ last_status b2 = last_status b1
  /\ found_date b2 = found_date b1.
Proof.
  intros Hsame Hout1 Hout2.
  destruct (entry_outcome_query env1 i b b1 Hout1) as (Ht & Hl & Hq).
  assert (response_of env2 i b1 = response_of env1 i b) as Hresp.
  { unfold response_of. by rewrite Hsame, Hl, Hq. }
  unfold new_find_of. unfold entry_outcome in Hout1, Hout2. rewrite Hresp in *.
  destruct (response_of env1 i b) as [data|]; [|by subst].
  rewrite Ht in *.
  destruct Hout1 as (_ & _ & _ & _ & _ & Hrest1).
  destruct Hout2 as (? & ? & ? & ? & _ & Hrest2).
  destruct (scan_items _ _).
  - destruct Hrest1 as [Hst1 _]. destruct Hrest2 as [Hst2 Hfd2].
    rewrite Hst1 in *. rewrite bool_decide_eq_false_2 in * by done. by repeat split.
  - destruct Hrest1 as [Hst1 _]. destruct Hrest2 as [Hst2 Hfd2].
    rewrite Hst1. case_bool_decide; by repeat split.
Qed.

Lemma flat_map_all_nil {A B} (f : A -> list B) (l : list A) :
  (forall x, x ∈ l -> f x = []) -> flat_map f l = [].
Proof.
  induction l as [|x l IH]; [done|]. intros Hall. simpl.
  rewrite (Hall x) by by left. apply IH. intros y Hy. apply Hall. by right.
Qed.

(** X21. Running check a second time against a catalogue that answers
    every request as it did the first time reports no new find and
    changes nothing in any entry except its [last_checked] time. *)
Theorem recheck_changes_only_the_check_time (env1 env2 : Env) (bs : list Book) :
  (forall idx l q, remote env2 idx l q = remote env1 idx l q) ->
  let bs1 := cs_books (check_pass env1 bs) in
  let bs2 := cs_books (check_pass env2 bs1) in
  cs_new_finds (check_pass env2 bs1) = []
  /\ length bs2 = length bs1
  /\ forall i b1, bs1 !! i = Some b1 ->
       exists b2, bs2 !! i = Some b2
         /\ title b2 = title b1 /\ author b2 = author b1 /\ library b2 = library b1
         /\ added b2 = added b1 /\ last_status b2 = last_status b1
         /\ found_date b2 = found_date b1.
Proof.
  intros Hsame bs1 bs2.
  assert (forall i b1, bs1 !! i = Some b1 ->
            exists b b2, bs !! i = Some b /\ bs2 !! i = Some b2
              /\ entry_outcome env1 i b b1 /\ entry_outcome env2 i b1 b2) as Hboth.
  { intros i b1 Hb1.
    destruct (bs !! i) as [b|] eqn:Hb.
    - destruct (check_pass_at env1 bs i b Hb) as (b1' & Hb1' & Hout1).
      fold bs1 in Hb1'. rewrite Hb1 in Hb1'. injection Hb1' as <-.
      destruct (check_pass_at env2 bs1 i b1 Hb1) as (b2 & Hb2 & Hout2).
      by exists b, b2.
    - apply lookup_lt_Some in Hb1. apply lookup_ge_None in Hb.
      unfold bs1 in Hb1. rewrite check_pass_length in Hb1. lia. }
  split; [|split].
  - rewrite check_pass_new_finds. apply flat_map_all_nil. intros i _.
    unfold new_find_entries. destruct (bs1 !! i) as [b1|] eqn:Hb1; [|done].
    destruct (Hboth i b1 Hb1) as (b & b2 & _ & _ & Hout1 & Hout2).
    by destruct (recheck_entry env1 env2 i b b1 b2 Hsame Hout1 Hout2) as [-> _].
  - unfold bs2. apply check_pass_length.
  - intros i b1 Hb1. destruct (Hboth i b1 Hb1) as (b & b2 & _ & Hb2 & Hout1 & Hout2).
    exists b2. split; [done|].
    by destruct (recheck_entry env1 env2 i b b1 b2 Hsame Hout1 Hout2) as [_ ?].
Qed.

Lemma recheck_changes_only_the_check_time_witness :
  (forall idx l q,
     remote (Sample.env_answering [Sample.dune_item] "2024-03-04") idx l q
     = remote (Sample.env_answering [Sample.dune_item] "2024-03-03") idx l q)
  /\ cs_new_finds
       (check_pass (Sample.env_answering [Sample.dune_item] "2024-03-04")
          (cs_books (check_pass (Sample.env_answering [Sample.dune_item] "2024-03-03")
                       [Sample.book "Dune" "not_found" None]))) = [].
Proof.
  assert (forall idx l q,
            remote (Sample.env_answering [Sample.dune_item] "2024-03-04") idx l q
            = remote (Sample.env_answering [Sample.dune_item] "2024-03-03") idx l q)
    as Hsame by reflexivity.
  split; [exact Hsame|].
  exact (proj1 (recheck_changes_only_the_check_time
                  (Sample.env_answering [Sample.dune_item] "2024-03-03")
                  (Sample.env_answering [Sample.dune_item] "2024-03-04")
                  [Sample.book "Dune" "not_found" None] Hsame)).
Defined.

End Recheck.
